(* ===== verification/_CoqProject ===== *)
-Q . S2P
Prelude.v
JsString.v
Models.v
Lifecycle.v
Auth.v
AdminOrders.v
Seed.v
Server.v
Api.v
Widgets.v
Dashboard.v
Pages.v
