(* ===== verification/Prelude.v ===== *)
(** * SmartLink: a verification development

    SmartLink is a delivery marketplace: a Node back end
    ([src/smartlink-backend]: Mongoose models and an Express server;
    [src/smartlink_backend]: the auth routes and a seed script) and a
    Next.js admin dashboard ([src/admin]).  [spec.md] describes the order
    lifecycle engine that the back end's controllers are to implement.
    This development models each part as executable Rocq definitions and
    proves what the code does, bugs included.

    ** How the parts interact, and where each is modelled

    - [Prelude] (this file): the [result] type ([Ok]/[Err]) with its
      [x <-? r ;; k] and [check b else e ;; k] notations in
      [smartlink_scope], the hint databases [smartlink] and
      [smartlink_rw], the tactics [invc], [unfold_results],
      [destruct_guards], [in_list] and [decide_prop].
    - [JsString], Module [Js]: the JavaScript string built-ins the pages
      call ([toLowerCase], [includes], [split], [join], [s[0]]) on ASCII
      strings; [JsFacts] has the append and prefix lemmas.
    - [Models]: Mongoose's casting ([Mongo]: JS values as [js_value], a
      document as an association list where the last binding wins, a
      writer that collects [ValidationError]s, the [Date] cast as the
      class [DateCast], the timestamps and the version key) and the three
      schemas [models/Order.js], [User.js], [Product.js] as Modules
      [Order], [User], [Product], each with its record and [cast] (strict
      mode: undeclared keys are dropped; enums and defaults as the schema
      says; the status default for [undefined] only, so the record
      [order_of] takes the type of its status: [order_doc] may hold a
      [null] status, [order] is an order whose status is set).
    - [Lifecycle]: the engine of [spec.md], over the Order schema's record
      and statuses.  No code under [src/] implements it (the controllers
      are not in the repository), so its definitions are modelled from the
      spec.  [apply] is one request on one snapshot; [step] the state
      machine; [handle] a request against a versioned store ([gmap]) with
      the conditional commit the spec asks for.
    - [Auth]: bcrypt as the class [Hasher] (hash, compare and their laws;
      the instance [tag_hasher] shows the laws satisfiable).  Module [Hook]
      models [User.js]'s [matchPassword] and its [pre("save")] hook as a
      trace of events ([Next], [SetPassword], [Resolve]) interleaved with
      the save's write ([Persist]) at every position ([schedules]).
      Module [AuthRoutes] models the express-validator chains of
      [routes/auth.js], with [isEmail] a Section variable and
      [isLength] counting characters as validator.js does, on the bytes
      of the UTF-8 body; [AuthRoutesFacts] checks that count against a
      reference, the UTF-8 encoding [utf8] of a list of code points.
    - [AdminOrders], Module [OrdersPage]: [app/orders/page.tsx]: the
      sample orders, the four [useState] hooks and their events, the
      search and status filter, and the rows, an [option] because a status
      without a [statusConfig] entry throws.
    - [Seed]: [seed.js] in a state, error and trace monad [M]
      ([do x <- m ;; k]): each awaited call is recorded as a [call] and
      run against the class [SeedModels], which stands for the mongoose
      connection and the [./models/User] and [./models/Product] modules
      the script requires, which are not in the repository (its
      [smartlink_backend] directory holds no models); exit code 0 or 1.
    - [Server]: [server.js]: the middleware stack [app] and Express's walk
      [dispatch] (mount-path matching, error mode, final handler); routers
      are a Section variable.  [PORT] is [process.env.PORT || 5000].
    - [Api]: [routes/auth.js] as an Express router (Module [AuthRouter]:
      its three routes, method and path matching, the handlers of a route
      run in order), written against the class [Controllers] that stands
      for the controllers and [auth] middleware it imports, which are not
      in the repository.  The router is taken on its own: [server.js]
      mounts [./routes/authRoutes.js], not this file.  Module [Startup]
      is [server.js]'s top level ([dotenv.config()], [connectDB()],
      [app.listen(PORT)]).
    - [Widgets]: the dashboard's five panels ([RecentOrders], [StatsGrid],
      [TopProducts], [ActivityFeed], [RevenueChart]) over their arrays and
      [isDarkMode].  [Dashboard]: [Sidebar] (brand, items, user block),
      [Header] (menu, search, theme, bell, avatar) and the composed
      dashboard page, whose state is the page's two flags plus the
      header's search.
    - [Pages]: the app directory as Next.js routes it.  Modules [NotFound]
      ([not-found.tsx]: its texts and two links) and [Loading]
      ([loading.tsx]: title, ring and dot timings); [OrdersScreen], the
      orders page as mounted with [Sidebar] and [Header] (the page's hooks
      plus the header's own search); [Router], which sends ["/orders"] to
      the page, the paths of the pages the repository does not hold (the
      class [OtherPages]) to those, and every other path to
      [not-found.tsx]; [Nav], a browser session where following a link
      shows the loading fallback and then the route's page, remounting the
      orders page when the route changes.

    Each component file ends with a [...Facts] module of properties.

    ** What the theorems show

    - The password hook (C1-C2): because the hook calls [next()] without
      [return], a save that leaves the password alone re-hashes the
      stored digest and the next save writes it, locking the user out.
    - The seed script (C3, C7-C8), for every implementation of the
      models: the exact calls of a successful run, the seller reused when
      one exists and its id on every inserted product, and a failed
      [User.create] ending the run before any product is touched.
    - The engine (C4, C11, C24-C28, C30-C31): the rider invariant on every
      reachable order; liveness: every reachable order that is not
      delivered or cancelled can still be delivered; refinement of the
      transition table; [InvalidTransition] exactly off the table; at most
      three steps per order; the store invariant; a racing commit is
      refused; the [InvalidAssignment] and [Unauthorized] branches.
    - The server (C5-C6, C33-C35): a request reaches its router;
      malformed JSON and every router error go to [errorHandler]; an
      unknown path gets 404; the port after [dotenv.config()].
    - The auth router (C13, C15-C16), for every implementation of the
      controllers: [POST /register] reaches [register] with exactly the
      validators' errors; [getMe] runs only behind an accepted token; a
      method the router does not declare runs no handler.
    - The schemas and validators (C9-C10, C12, C14, C22-C23, C29): enum
      rejection with its message, strict mode over every declared path,
      the timestamps of a new order, a [null] status kept; the role check
      ("Invalid role" exactly off buyer, seller, rider; a passing
      registration names no admin) and the password length counted in
      characters, checked against the UTF-8 reference.
    - The pages and routes (C17-C21, C32): on the orders page the
      header's search filters nothing, the light theme writes white on
      white, and the sidebar highlights "Dashboard"; the filter as
      substring search on lower-cased text; the orders table renders in
      every state; which paths end on the 404 page.

    ** Bounds, fuel, choices

    No definition needs fuel: every recursion is structural (strings,
    lists, the middleware stack).  Numbers the code compares are [nat] or
    [Q] as their use requires; code points in the UTF-8 reference are [N]
    below 1114112.  Time stamps are [nat] milliseconds ([now], and what
    the [Date] cast returns).  The hook's asynchrony is covered by
    enumerating every position of the write among the hook's events,
    which is all the orders the Mongoose save can produce for a single
    hook.

    ** Not modelled

    The controllers, [middleware/auth.js], [errorMiddleware.js], the
    routers [server.js] mounts (among them [./routes/authRoutes.js]),
    [config/db.js], the models [seed.js] requires and the app's root
    layout and pages beside [orders/] are not in the repository: the auth
    router takes the first two as an instance of [Controllers], the
    server takes its routers as a parameter, [connectDB] is an effect of
    the start-up, the seed script takes its models as [SeedModels] and
    the navigation the other pages as [OtherPages].  bcrypt's, isEmail's
    and the [Date] parser's internals (library code, abstracted as
    [Hasher], a parameter and [DateCast]); console output and the socket
    behind [listen]; dotenv's file parsing (a [.env] file is taken as its
    list of key-value pairs); animations (kept only as durations and
    delays in [Loading]), icons and static markup of the pages; how
    Tailwind turns class names into styles (classes are modelled as the
    strings the code builds, and a [className] as its space-separated
    tokens); Next.js's URL normalisation (trailing slashes, query
    strings) and prefetching. *)

From stdpp Require Export base list strings decidable option sets.
From Stdlib Require Export Ascii.

Declare Scope smartlink_scope.
Delimit Scope smartlink_scope with sl.
Open Scope stdpp_scope.

(** ** Results of fallible operations *)

(** The engine and the schema casts return either a value or a typed
    error, never an exception: [Ok] and [Err]. *)
Inductive result (E A : Type) : Type :=
| Ok (a : A)
| Err (e : E).
Arguments Ok {E A} a.
Arguments Err {E A} e.

Definition result_bind {E A B} (r : result E A) (k : A -> result E B) : result E B :=
  match r with
  | Ok a => k a
  | Err e => Err e
  end.

(** [guard_or b e k] continues with [k] when the check [b] holds and fails
    with [e] otherwise: an early [return error] of the source. *)
Definition guard_or {E A} (b : bool) (e : E) (k : result E A) : result E A :=
  if b then k else Err e.

Definition is_ok {E A} (r : result E A) : bool :=
  match r with Ok _ => true | Err _ => false end.

Notation "x <-? r ;; k" := (result_bind r (fun x => k))
  (at level 100, r at next level, right associativity) : smartlink_scope.
Notation "'check' b 'else' e ;; k" := (guard_or b e k)
  (at level 100, b at next level, e at next level, right associativity) : smartlink_scope.

Create HintDb smartlink discriminated.
Create Rewrite HintDb smartlink_rw.

Lemma result_bind_Ok {E A B} (r : result E A) (k : A -> result E B) b :
  result_bind r k = Ok b <-> exists a, r = Ok a /\ k a = Ok b.
Proof. destruct r; simpl; naive_solver. Qed.

Lemma guard_or_Ok {E A} (b : bool) (e : E) (k : result E A) a :
  guard_or b e k = Ok a <-> b = true /\ k = Ok a.
Proof. destruct b; simpl; naive_solver. Qed.

Lemma guard_or_Err {E A} (b : bool) (e e' : E) (k : result E A) :
  guard_or b e k = Err e' <-> (b = false /\ e = e') \/ (b = true /\ k = Err e').
Proof. destruct b; simpl; naive_solver. Qed.

#[export] Hint Rewrite @result_bind_Ok @guard_or_Ok : smartlink_rw.

(** [invc H]: invert, substitute and clear. *)
Ltac invc H := inversion H; subst; clear H.

(** [unfold_results]: turn a successful chain of checks into the facts
    that each check passed. *)
Ltac unfold_results :=
  repeat match goal with
  | H : result_bind _ _ = Ok _ |- _ =>
      apply result_bind_Ok in H; destruct H as (? & ? & ?)
  | H : guard_or _ _ _ = Ok _ |- _ =>
      apply guard_or_Ok in H; destruct H as [? ?]
  | H : bool_decide _ = true |- _ => apply bool_decide_eq_true in H
  | H : Ok _ = Ok _ |- _ => injection H as H; subst
  | H : Err _ = Ok _ |- _ => discriminate H
  end.

(** [destruct_guards]: case on every undecided check of a chain. *)
Ltac destruct_guards :=
  repeat match goal with
  | |- context [guard_or ?b _ _] =>
      lazymatch b with
      | true => fail
      | false => fail
      | _ => destruct b; simpl
      end
  end.


(** [in_list]: membership in a list written out. *)
Ltac in_list := apply list_elem_of_In; simpl; repeat (first [left; reflexivity | right]).

(** [decide_prop]: a decidable proposition on closed data, by evaluation. *)
Ltac decide_prop := apply (bool_decide_unpack _); vm_compute; reflexivity.
