(* ===== verification/JsString.v ===== *)
(** * JavaScript string built-ins used by the admin pages

    The orders page and the tables of the dashboard call
    [String.prototype.toLowerCase], [toUpperCase], [includes], [split(' ')],
    indexing [n[0]] and [Array.prototype.join('')].  Strings are modelled as
    Rocq [string]s, i.e. sequences of bytes: a literal with a non-ASCII
    character (the naira sign of the amounts) is its UTF-8 bytes.  Case
    mapping is modelled on ASCII letters and leaves every other byte alone,
    which is what JavaScript does on all the strings the repository holds
    (names, ids and payment states are ASCII).  [includes] is proved equal to
    its specification "the needle occurs at some position", and
    [split]/[join] form a round trip. *)

From S2P Require Import Prelude.

Module Js.

(** ** Case mapping *)

Definition ascii_to_lower (c : ascii) : ascii :=
  let n := nat_of_ascii c in
  if (65 <=? n) && (n <=? 90) then ascii_of_nat (n + 32) else c.

Definition ascii_to_upper (c : ascii) : ascii :=
  let n := nat_of_ascii c in
  if (97 <=? n) && (n <=? 122) then ascii_of_nat (n - 32) else c.

(** [s.toLowerCase()] *)
Fixpoint toLowerCase (s : string) : string :=
  match s with
  | EmptyString => EmptyString
  | String c s' => String (ascii_to_lower c) (toLowerCase s')
  end.

(** [s.toUpperCase()] *)
Fixpoint toUpperCase (s : string) : string :=
  match s with
  | EmptyString => EmptyString
  | String c s' => String (ascii_to_upper c) (toUpperCase s')
  end.

(** ** Substring search *)

(** [s.includes(q)]: [q] is a prefix of [s] at some position.  The search
    tries position 0 and then the positions of the tail, as the engines'
    naive loop does; an empty needle is found at position 0. *)
Fixpoint includes (s q : string) : bool :=
  String.prefix q s ||
  match s with
  | EmptyString => false
  | String _ s' => includes s' q
  end.

(** ** Splitting and joining *)

(** [s.split(sep)] for a one-character separator: the pieces between the
    separators, empty pieces included; [""] splits into [[""]]. *)
Fixpoint split (sep : ascii) (s : string) : list string :=
  match s with
  | EmptyString => [EmptyString]
  | String c s' =>
      let rest := split sep s' in
      if decide (c = sep) then EmptyString :: rest
      else match rest with
           | w :: ws => String c w :: ws
           | [] => [String c EmptyString]
           end
  end.

(** [ws.join(sep)] *)
Fixpoint join (sep : string) (ws : list string) : string :=
  match ws with
  | [] => EmptyString
  | [w] => w
  | w :: ws' => w +:+ sep +:+ join sep ws'
  end.

(** [s[0]]: the first character, or [undefined] on the empty string. *)
Definition char_at0 (s : string) : option string :=
  match s with
  | EmptyString => None
  | String c _ => Some (String c EmptyString)
  end.

(** [xs.join(sep)] over an array that may hold [undefined]: the join
    renders [undefined] as the empty string. *)
Definition join_opt (sep : string) (xs : list (option string)) : string :=
  join sep (map (default EmptyString) xs).

End Js.

(** ** Lemmas *)

Module JsFacts.
Import Js.

Lemma append_nil_l (s : string) : EmptyString +:+ s = s.
Proof. reflexivity. Qed.

Lemma append_cons (c : ascii) (s t : string) : String c s +:+ t = String c (s +:+ t).
Proof. reflexivity. Qed.

Lemma append_nil_r (s : string) : s +:+ EmptyString = s.
Proof. induction s; [reflexivity|rewrite append_cons; congruence]. Qed.

Lemma append_assoc (s t u : string) : s +:+ (t +:+ u) = (s +:+ t) +:+ u.
Proof. induction s; [reflexivity|rewrite !append_cons; congruence]. Qed.

Lemma length_append (s t : string) : String.length (s +:+ t) = String.length s + String.length t.
Proof. induction s; [reflexivity|rewrite append_cons; simpl; congruence]. Qed.

#[export] Hint Rewrite append_nil_l append_cons append_nil_r length_append : smartlink_rw.

Lemma ascii_to_lower_idem c : ascii_to_lower (ascii_to_lower c) = ascii_to_lower c.
Proof. destruct c as [[][][][][][][][]]; reflexivity. Qed.

Lemma toLowerCase_idem s : toLowerCase (toLowerCase s) = toLowerCase s.
Proof. induction s; simpl; rewrite ?ascii_to_lower_idem; congruence. Qed.

Lemma toLowerCase_append s t : toLowerCase (s +:+ t) = toLowerCase s +:+ toLowerCase t.
Proof. induction s; [reflexivity|rewrite append_cons; simpl; rewrite append_cons; congruence]. Qed.

(** [String.prefix q s] holds exactly when [s] starts with [q]. *)
Lemma prefix_spec q s : String.prefix q s = true <-> exists r, s = q +:+ r.
Proof.
  revert s; induction q as [|a q IH]; intros [|b s]; simpl.
  - split; eauto.
  - split; eauto.
  - split; [done|]. intros [r Hr]. discriminate.
  - destruct (ascii_dec a b) as [->|Hab].
    + rewrite IH. split; intros [r Hr]; exists r; [by subst|by injection Hr].
    + split; [done|]. intros [r Hr]. injection Hr. congruence.
Qed.

(** Two prefixes of one string: one is a prefix of the other. *)
Lemma append_comparable a b r1 r2 :
  a +:+ r1 = b +:+ r2 -> (exists t, b = a +:+ t) \/ (exists t, a = b +:+ t).
Proof.
  revert b; induction a as [|c a IH]; intros [|c' b] H; eauto.
  rewrite !append_cons in H. injection H as -> H.
  destruct (IH b H) as [[t ->]|[t ->]]; [left|right]; exists t; by rewrite append_cons.
Qed.

Lemma prefix_comparable a b s :
  String.prefix a s = true -> String.prefix b s = true ->
  String.prefix a b = true \/ String.prefix b a = true.
Proof.
  rewrite !prefix_spec. intros [r1 ->] [r2 Hr].
  exact (append_comparable a b r1 r2 Hr).
Qed.

Lemma includes_nil q : includes EmptyString q = String.prefix q EmptyString || false.
Proof. reflexivity. Qed.

Lemma includes_cons c s q :
  includes (String c s) q = String.prefix q (String c s) || includes s q.
Proof. reflexivity. Qed.

End JsFacts.

(** [s.includes(q)] is true exactly when [q] occurs in [s]: the search is
    equivalent to its specification. *)
Lemma includes_spec s q :
  Js.includes s q = true <-> exists p r, s = p +:+ q +:+ r.
Proof.
  induction s as [|c s IH].
  - rewrite JsFacts.includes_nil, orb_false_r, JsFacts.prefix_spec. split.
    + intros [r Hr]. exists EmptyString, r. done.
    + intros ([|? p] & r & H); [by exists r|discriminate].
  - rewrite JsFacts.includes_cons, orb_true_iff, JsFacts.prefix_spec, IH.
    split.
    + intros [[r Hr]|(p & r & Hr)].
      * by exists EmptyString, r.
      * exists (String c p), r. by rewrite Hr.
    + intros ([|c' p] & r & H).
      * left. by exists r.
      * right. injection H as -> ->. by exists p, r.
Qed.

(** The empty needle is found in every string. *)
Lemma includes_empty s : Js.includes s EmptyString = true.
Proof. destruct s; reflexivity. Qed.

(** Splitting never yields an empty array. *)
Lemma split_nonempty sep s : Js.split sep s <> [].
Proof.
  induction s as [|c s IH]; simpl; [done|].
  case_decide; [done|]. destruct (Js.split sep s); done.
Qed.

(** [s.split(sep).join(sep)] gives back [s]: split and join are a round
    trip for a one-character separator. *)
Lemma join_split sep s :
  Js.join (String sep EmptyString) (Js.split sep s) = s.
Proof.
  induction s as [|c s IH]; [reflexivity|]. simpl.
  destruct (Js.split sep s) as [|w ws] eqn:E; [by destruct (split_nonempty sep s)|].
  rewrite <- IH. case_decide; [subst|]; destruct ws; reflexivity.
Qed.

(** The characters of a join over the empty separator are those of the
    pieces. *)
Lemma length_join_empty ws :
  String.length (Js.join EmptyString ws) = sum_list (map String.length ws).
Proof.
  induction ws as [|w [|w' ws] IH]; simpl; [done|lia|].
  rewrite !JsFacts.length_append. simpl in IH. rewrite IH. simpl. lia.
Qed.
