(* ===== verification/Models.v ===== *)
(** * The Mongoose models of the backend

    [src/smartlink-backend/models/Order.js], [User.js] and [Product.js]
    declare three schemas.  A schema turns the plain JavaScript object handed
    to [Model.create] / [new Model(...)] into a stored document: it keeps only
    the declared paths (strict mode), casts each value to the declared type,
    checks the [enum] lists, fills the [default]s and the [timestamps], and
    reports every failing path at once in a [ValidationError].

    [Mongo] holds the JavaScript values, the per-type casts and the
    error-collecting writer that composes them; [Order], [User] and
    [Product] each hold the record of a stored document, the enum types of
    the schema with their string forms, and [cast], the schema itself read
    as a function from the input object to a document or the list of its
    errors.  [{ timestamps: true }] adds [createdAt], [updatedAt] and the
    version key [__v] to every schema; the [Date] cast they use is the
    JavaScript [Date] parser, the class [DateCast].  The theorems show the
    enum parsers to be inverse to the printers, the status default (for an
    [undefined] status only), the timestamps of a new order, the strict
    filtering of unknown keys, and which statuses the Order schema
    rejects. *)

From Stdlib Require Import QArith_base.
From S2P Require Import Prelude.

Local Set Warnings "-register-all".

Module Mongo.

(** ** JavaScript values *)

(** A value as JavaScript code hands it to Mongoose.  Numbers are the
    finite decimal literals of the sources, as rationals; [JObjectId] is a
    BSON ObjectId (the [_id] of a stored document) by its hex string. *)
Inductive js_value : Type :=
| JUndefined
| JNull
| JBool (b : bool)
| JNumber (q : Q)
| JString (s : string)
| JObjectId (hex : string)
| JArray (xs : list js_value)
| JObject (fields : list (string * js_value)).

(** An object literal, fields in source order.  A spread [{...o, k: v}]
    is [o ++ [(k, v)]]. *)
Abbreviation js_object := (list (string * js_value)).

(** [o[k]]: the last binding of [k] wins, as in an object literal with a
    repeated key or a spread followed by an override. *)
Fixpoint js_lookup (o : js_object) (k : string) : option js_value :=
  match o with
  | [] => None
  | (k', v) :: o' =>
      match js_lookup o' k with
      | Some w => Some w
      | None => if decide (k = k') then Some v else None
      end
  end.

Definition js_get (o : js_object) (k : string) : js_value :=
  default JUndefined (js_lookup o k).

(** ** Validation errors *)

Inductive schema_error : Type :=
| CastError (path : string)
| EnumError (path : string) (value : string)
| DuplicateKey (path : string) (value : string).

#[global] Instance schema_error_eq_dec : EqDecision schema_error.
Proof. solve_decision. Defined.

(** ** The casting writer

    A cast produces a value and the errors met on the way; errors of
    successive paths accumulate in schema order, and the document is
    created only when there is none. *)
Definition cast (A : Type) := (list schema_error * A)%type.

Definition cret {A} (a : A) : cast A := ([], a).

Definition cbind {A B} (c : cast A) (k : A -> cast B) : cast B :=
  let '(e1, a) := c in
  let '(e2, b) := k a in
  (e1 ++ e2, b).

Definition finish {A} (c : cast A) : result (list schema_error) A :=
  match c.1 with
  | [] => Ok c.2
  | errs => Err errs
  end.

Notation "x <~ c ;;; k" := (cbind c (fun x => k))
  (at level 100, c at next level, right associativity) : smartlink_scope.
Local Open Scope smartlink_scope.

(** ** Casts per schema type

    [undefined] and [null] leave an optional path unset.  A value of
    another JavaScript type than the path's is a [CastError]; Mongoose
    would also coerce numbers and booleans to strings and numeric strings
    to numbers, which no caller in the repository relies on. *)

Definition cast_string (path : string) (v : js_value) : cast (option string) :=
  match v with
  | JUndefined | JNull => cret None
  | JString s => cret (Some s)
  | _ => ([CastError path], None)
  end.

Definition cast_number (path : string) (v : js_value) : cast (option Q) :=
  match v with
  | JUndefined | JNull => cret None
  | JNumber q => cret (Some q)
  | _ => ([CastError path], None)
  end.

Definition cast_bool (path : string) (v : js_value) : cast (option bool) :=
  match v with
  | JUndefined | JNull => cret None
  | JBool b => cret (Some b)
  | _ => ([CastError path], None)
  end.

Definition is_hex_digit (c : ascii) : bool :=
  let n := nat_of_ascii c in
  ((48 <=? n) && (n <=? 57)) || ((97 <=? n) && (n <=? 102)) || ((65 <=? n) && (n <=? 70)).

Fixpoint all_hex (s : string) : bool :=
  match s with
  | EmptyString => true
  | String c s' => is_hex_digit c && all_hex s'
  end.

(** An ObjectId path takes an ObjectId, or a string of 24 hex digits. *)
Definition cast_object_id (path : string) (v : js_value) : cast (option string) :=
  match v with
  | JUndefined | JNull => cret None
  | JObjectId h => cret (Some h)
  | JString s =>
      if (String.length s =? 24) && all_hex s then cret (Some s)
      else ([CastError path], None)
  | _ => ([CastError path], None)
  end.

(** [[String]]: an array path defaults to the empty array. *)
Definition cast_string_array (path : string) (v : js_value) : cast (list string) :=
  match v with
  | JUndefined | JNull => cret []
  | JArray xs =>
      let strs := omap (fun x => match x with JString s => Some s | _ => None end) xs in
      if decide (length strs = length xs) then cret strs else ([CastError path], [])
  | _ => ([CastError path], [])
  end.

(** A string path with an [enum]: the cast string must be one of the
    values, given here by the parser of the enum type; an unset value
    passes the validator. *)
Definition cast_enum {A} (path : string) (parse : string -> option A) (v : js_value)
    : cast (option A) :=
  s <~ cast_string path v ;;;
  match s with
  | None => cret None
  | Some s' =>
      match parse s' with
      | Some a => cret (Some a)
      | None => ([EnumError path s'], None)
      end
  end.

(** [Date] paths, the timestamps: Mongoose casts a value with the
    JavaScript [Date] constructor, a library parser given here as a
    class; [date_of v] is the time in milliseconds since the epoch, or
    [None] for an Invalid Date. *)
Class DateCast : Type := date_of : js_value -> option nat.

Definition cast_date `{DateCast} (path : string) (v : js_value) : cast (option nat) :=
  match v with
  | JUndefined | JNull => cret None
  | _ => match date_of v with Some t => cret (Some t) | None => ([CastError path], None) end
  end.

(** [{ timestamps: true }] on a new document: a [createdAt] the input
    sets is kept, otherwise it is [now]; [updatedAt] is set to the value
    of [createdAt], whatever the input gave.  The version key [__v] is a
    declared Number path, [0] on a new document that does not set it. *)
Definition timestamps `{DateCast} (now : nat) (doc : js_object) : cast (nat * nat * Q) :=
  c <~ cast_date "createdAt" (js_get doc "createdAt") ;;;
  u <~ cast_date "updatedAt" (js_get doc "updatedAt") ;;;
  v <~ cast_number "__v" (js_get doc "__v") ;;;
  cret (default now c, default now c, default 0%Q v).

End Mongo.

(** ** Order ([models/Order.js]) *)

Module Order.
Import Mongo.
Local Open Scope smartlink_scope.

(** [status: { enum: ["pending", "assigned", "picked", "delivered",
    "cancelled"], default: "pending" }] *)
Inductive order_status : Type := pending | assigned | picked | delivered | cancelled.

(** [deliveryMode: { enum: ["local", "interstate"] }] *)
Inductive delivery_mode : Type := local | interstate.

#[global] Instance status_eq_dec : EqDecision order_status.
Proof. solve_decision. Defined.
#[global] Instance delivery_mode_eq_dec : EqDecision delivery_mode.
Proof. solve_decision. Defined.

Definition status_values : list string :=
  ["pending"; "assigned"; "picked"; "delivered"; "cancelled"].

Definition string_of_status (s : order_status) : string :=
  match s with
  | pending => "pending" | assigned => "assigned" | picked => "picked"
  | delivered => "delivered" | cancelled => "cancelled"
  end.

Definition status_of_string (s : string) : option order_status :=
  if decide (s = "pending") then Some pending
  else if decide (s = "assigned") then Some assigned
  else if decide (s = "picked") then Some picked
  else if decide (s = "delivered") then Some delivered
  else if decide (s = "cancelled") then Some cancelled
  else None.

Definition string_of_delivery_mode (m : delivery_mode) : string :=
  match m with local => "local" | interstate => "interstate" end.

Definition delivery_mode_of_string (s : string) : option delivery_mode :=
  if decide (s = "local") then Some local
  else if decide (s = "interstate") then Some interstate
  else None.

(** A stored order.  The references are ObjectIds by their hex strings;
    an unset path is [None].  [_id] is generated by Mongoose, [createdAt]
    and [updatedAt] by [{ timestamps: true }], [__v] is the version key.
    The type [S] of the status is a parameter: [Model.create] can store
    a [null] status ([order_doc]), the lifecycle handles orders whose
    status is set ([order]). *)
Record order_of (S : Type) : Type := mk_order {
  _id : string;
  buyerId : option string;
  sellerId : option string;
  riderId : option string;
  productId : option string;
  total : option Q;
  status : S;
  deliveryMode : option delivery_mode;
  createdAt : nat;
  updatedAt : nat;
  __v : Q
}.

Arguments mk_order {S}.
Arguments _id {S}. Arguments buyerId {S}. Arguments sellerId {S}. Arguments riderId {S}.
Arguments productId {S}. Arguments total {S}. Arguments status {S}. Arguments deliveryMode {S}.
Arguments createdAt {S}. Arguments updatedAt {S}. Arguments __v {S}.

Abbreviation order := (order_of order_status).
Abbreviation order_doc := (order_of (option order_status)).

(** [status] with its [default: "pending"]: only an [undefined] status
    takes the default; [null] is kept, and passes the enum validator. *)
Definition cast_status (v : js_value) : cast (option order_status) :=
  match v with
  | JUndefined => cret (Some pending)
  | _ => cast_enum "status" status_of_string v
  end.

(** [new Order(doc)] saved at time [now] under the fresh id [id]: every
    declared path cast in schema order, then the timestamps and the
    version key; keys the schema does not declare are dropped. *)
Definition cast `{DateCast} (id : string) (now : nat) (doc : js_object)
    : result (list schema_error) order_doc :=
  finish (
    i <~ cast_object_id "_id" (js_get doc "_id") ;;;
    b <~ cast_object_id "buyerId" (js_get doc "buyerId") ;;;
    s <~ cast_object_id "sellerId" (js_get doc "sellerId") ;;;
    r <~ cast_object_id "riderId" (js_get doc "riderId") ;;;
    p <~ cast_object_id "productId" (js_get doc "productId") ;;;
    t <~ cast_number "total" (js_get doc "total") ;;;
    st <~ cast_status (js_get doc "status") ;;;
    m <~ cast_enum "deliveryMode" delivery_mode_of_string (js_get doc "deliveryMode") ;;;
    ts <~ timestamps now doc ;;;
    cret {| _id := default id i; buyerId := b; sellerId := s; riderId := r; productId := p;
            total := t; status := st; deliveryMode := m;
            createdAt := ts.1.1; updatedAt := ts.1.2; __v := ts.2 |}).

(** The paths the schema declares: its eight fields ([_id] included),
    the two timestamps and the version key. *)
Definition paths : list string :=
  ["_id"; "buyerId"; "sellerId"; "riderId"; "productId"; "total"; "status"; "deliveryMode";
   "createdAt"; "updatedAt"; "__v"].

End Order.

(** ** User ([models/User.js], the schema) *)

Module User.
Import Mongo.
Local Open Scope smartlink_scope.

(** [role: { enum: ["buyer", "seller", "rider", "admin"] }] *)
Inductive user_role : Type := buyer | seller | rider | admin.

#[global] Instance role_eq_dec : EqDecision user_role.
Proof. solve_decision. Defined.

Definition role_values : list string := ["buyer"; "seller"; "rider"; "admin"].

Definition string_of_role (r : user_role) : string :=
  match r with buyer => "buyer" | seller => "seller" | rider => "rider" | admin => "admin" end.

Definition role_of_string (s : string) : option user_role :=
  if decide (s = "buyer") then Some buyer
  else if decide (s = "seller") then Some seller
  else if decide (s = "rider") then Some rider
  else if decide (s = "admin") then Some admin
  else None.

(** A stored user; [verified] defaults to [false] and [rating] to [0]. *)
Record user : Type := mk_user {
  _id : string;
  name : option string;
  email : option string;
  phone : option string;
  password : option string;
  role : option user_role;
  bvn : option string;
  nin : option string;
  verified : bool;
  location : option string;
  rating : Q;
  createdAt : nat;
  updatedAt : nat;
  __v : Q
}.

(** [new User(doc)] before its [pre("save")] hook runs. *)
Definition cast `{DateCast} (id : string) (now : nat) (doc : js_object)
    : result (list schema_error) user :=
  finish (
    i <~ cast_object_id "_id" (js_get doc "_id") ;;;
    n <~ cast_string "name" (js_get doc "name") ;;;
    e <~ cast_string "email" (js_get doc "email") ;;;
    ph <~ cast_string "phone" (js_get doc "phone") ;;;
    pw <~ cast_string "password" (js_get doc "password") ;;;
    r <~ cast_enum "role" role_of_string (js_get doc "role") ;;;
    b <~ cast_string "bvn" (js_get doc "bvn") ;;;
    ni <~ cast_string "nin" (js_get doc "nin") ;;;
    v <~ cast_bool "verified" (js_get doc "verified") ;;;
    l <~ cast_string "location" (js_get doc "location") ;;;
    ra <~ cast_number "rating" (js_get doc "rating") ;;;
    ts <~ timestamps now doc ;;;
    cret {| _id := default id i; name := n; email := e; phone := ph; password := pw;
            role := r; bvn := b; nin := ni; verified := default false v;
            location := l; rating := default 0%Q ra;
            createdAt := ts.1.1; updatedAt := ts.1.2; __v := ts.2 |}).

End User.

(** ** Product ([models/Product.js]) *)

Module Product.
Import Mongo.
Local Open Scope smartlink_scope.

Record product : Type := mk_product {
  _id : string;
  sellerId : option string;
  name : option string;
  category : option string;
  description : option string;
  images : list string;
  price : option Q;
  stock : option Q;
  location : option string;
  createdAt : nat;
  updatedAt : nat;
  __v : Q
}.

Definition cast `{DateCast} (id : string) (now : nat) (doc : js_object)
    : result (list schema_error) product :=
  finish (
    i0 <~ cast_object_id "_id" (js_get doc "_id") ;;;
    s <~ cast_object_id "sellerId" (js_get doc "sellerId") ;;;
    n <~ cast_string "name" (js_get doc "name") ;;;
    c <~ cast_string "category" (js_get doc "category") ;;;
    d <~ cast_string "description" (js_get doc "description") ;;;
    i <~ cast_string_array "images" (js_get doc "images") ;;;
    p <~ cast_number "price" (js_get doc "price") ;;;
    st <~ cast_number "stock" (js_get doc "stock") ;;;
    l <~ cast_string "location" (js_get doc "location") ;;;
    ts <~ timestamps now doc ;;;
    cret {| _id := default id i0; sellerId := s; name := n; category := c; description := d;
            images := i; price := p; stock := st; location := l;
            createdAt := ts.1.1; updatedAt := ts.1.2; __v := ts.2 |}).

End Product.

(** * Properties *)

Module MongoFacts.
Import Mongo.

(** ** The writer and object lookup *)

Lemma cbind_errors {A B} (c : cast A) (k : A -> cast B) :
  (cbind c k).1 = c.1 ++ (k c.2).1.
Proof. destruct c as [e a]. simpl. by destruct (k a). Qed.

Lemma cbind_value {A B} (c : cast A) (k : A -> cast B) :
  (cbind c k).2 = (k c.2).2.
Proof. destruct c as [e a]. simpl. by destruct (k a). Qed.

Lemma finish_Ok {A} (c : cast A) a : finish c = Ok a <-> c.1 = [] /\ c.2 = a.
Proof. unfold finish. destruct c.1; naive_solver. Qed.

Lemma js_get_app_last (o : js_object) k v : js_get (o ++ [(k, v)]) k = v.
Proof.
  unfold js_get. induction o as [|[k' w] o IH]; simpl.
  - by rewrite decide_True.
  - destruct (js_lookup (o ++ [(k, v)]) k) eqn:E; simpl in *; [by subst|].
    exfalso. clear IH. induction o as [|[k'' w'] o IH']; simpl in E.
    + rewrite decide_True in E; done.
    + destruct (js_lookup (o ++ [(k, v)]) k); [done|]. by apply IH'.
Qed.

Lemma js_get_app_ne (o : js_object) k k' v :
  k' ≠ k -> js_get (o ++ [(k, v)]) k' = js_get o k'.
Proof.
  intros Hne. unfold js_get. f_equal. induction o as [|[k'' w] o IH]; simpl.
  - by rewrite decide_False.
  - by rewrite IH.
Qed.

Lemma finish_Err_elem {A} (c : cast A) e : e ∈ c.1 -> exists es, finish c = Err es /\ e ∈ es.
Proof. unfold finish. destruct c.1; [set_solver|eauto]. Qed.

Lemma cast_enum_unlisted {A} path (parse : string -> option A) s :
  parse s = None -> (cast_enum path parse (JString s)).1 = [EnumError path s].
Proof. intros H. unfold cast_enum. simpl. by rewrite H. Qed.

End MongoFacts.

(** [enum_parse_spec]: the parser of an enum inverts its printer. *)
Ltac enum_parse_spec :=
  split; [intros H; repeat case_decide; simplify_eq; done | intros ->; reflexivity].

Module OrderFacts.
Import Mongo MongoFacts Order.

(** The status parser inverts the printer: a string parses to a
    status exactly when it is that status's name in the schema's enum. *)
Lemma status_of_string_spec x s : status_of_string x = Some s <-> x = string_of_status s.
Proof. unfold status_of_string. destruct s; enum_parse_spec. Qed.

Lemma delivery_mode_of_string_spec x m :
  delivery_mode_of_string x = Some m <-> x = string_of_delivery_mode m.
Proof. unfold delivery_mode_of_string. destruct m; enum_parse_spec. Qed.

(** The parser accepts exactly the strings of the schema's enum list. *)
Lemma status_values_spec x : is_Some (status_of_string x) <-> x ∈ status_values.
Proof.
  unfold status_of_string, status_values. rewrite !elem_of_cons, elem_of_nil.
  repeat case_decide; naive_solver.
Qed.

Section WithDates.
Context `{DateCast}.

(** An order created without a status is [pending]: the schema's
    [default: "pending"]. *)
Theorem cast_status_default id now doc o :
  js_get doc "status" = JUndefined -> cast id now doc = Ok o -> status o = Some pending.
Proof.
  intros Hs Hc. unfold cast in Hc. apply finish_Ok in Hc as [_ <-].
  rewrite !cbind_value. simpl. by rewrite Hs.
Qed.

(** C14. An explicit [null] status is stored as [null]: the default applies
    to [undefined] only. *)
Theorem cast_status_null id now doc o :
  js_get doc "status" = JNull -> cast id now doc = Ok o -> status o = None.
Proof.
  intros Hs Hc. unfold cast in Hc. apply finish_Ok in Hc as [_ <-].
  rewrite !cbind_value. simpl. by rewrite Hs.
Qed.

(** C22. A status outside the enum list makes the creation fail, and the
    [ValidationError] names the status path and the rejected value. *)
Theorem cast_rejects_unlisted_status id now doc s :
  js_get doc "status" = JString s -> s ∉ status_values ->
  exists es, cast id now doc = Err es /\ EnumError "status" s ∈ es.
Proof.
  intros Hs Hn. apply finish_Err_elem. rewrite !cbind_errors. simpl. rewrite Hs.
  unfold cast_status. rewrite cast_enum_unlisted; [set_solver|].
  destruct (status_of_string s) eqn:E; [|done].
  destruct Hn. apply status_values_spec. by rewrite E.
Qed.

(** C12. The timestamps of a new order: a [createdAt] the input sets and the
    [Date] cast accepts is kept, and [updatedAt] equals it, whatever
    [updatedAt] the input gave. *)
Theorem cast_keeps_createdAt id now doc o t :
  js_get doc "createdAt" <> JUndefined -> js_get doc "createdAt" <> JNull ->
  date_of (js_get doc "createdAt") = Some t -> cast id now doc = Ok o ->
  createdAt o = t /\ updatedAt o = t.
Proof.
  intros Hu Hn Hd Hc. unfold cast in Hc. apply finish_Ok in Hc as [_ <-].
  rewrite !cbind_value. unfold timestamps, cast_date. rewrite !cbind_value. simpl.
  destruct (js_get doc "createdAt"); try done; rewrite Hd; done.
Qed.

(** C23. Strict mode: a key the schema does not declare (its fields, the
    timestamps and the version key) changes nothing. *)
Theorem cast_ignores_undeclared id now doc k v :
  k ∉ paths -> cast id now (doc ++ [(k, v)]) = cast id now doc.
Proof.
  intros Hk. unfold cast, timestamps. unfold paths in Hk.
  rewrite !(js_get_app_ne doc k) by set_solver. reflexivity.
Qed.

End WithDates.

(** The [Date] cast on numbers: a non-negative integer of milliseconds. *)
#[local] Instance epoch_ms : DateCast := fun v =>
  match v with
  | JNumber q => if Qle_bool 0 q then Some (Z.to_nat (Qnum q / Zpos (Qden q))) else None
  | _ => None
  end.

Lemma cast_status_default_witness :
  exists o, cast "oid0" 0 [("total", JNumber 1500)] = Ok o /\ status o = Some pending.
Proof.
  eexists. split; [reflexivity|].
  eapply (cast_status_default "oid0" 0 [("total", JNumber 1500)]); reflexivity.
Defined.

Lemma cast_status_null_witness :
  exists o, cast "oid0" 0 [("status", JNull)] = Ok o /\ status o = None.
Proof.
  eexists. split; [reflexivity|].
  eapply (cast_status_null "oid0" 0 [("status", JNull)]); reflexivity.
Defined.

Lemma cast_rejects_unlisted_status_witness :
  exists es, cast "oid0" 0 [("status", JString "processing")] = Err es /\
    EnumError "status" "processing" ∈ es.
Proof. apply cast_rejects_unlisted_status; [reflexivity|decide_prop]. Defined.

Lemma cast_keeps_createdAt_witness :
  exists o, cast "oid0" 99 [("createdAt", JNumber 5); ("updatedAt", JNumber 7)] = Ok o /\
    createdAt o = 5 /\ updatedAt o = 5.
Proof.
  eexists. split; [reflexivity|].
  eapply (cast_keeps_createdAt "oid0" 99 [("createdAt", JNumber 5); ("updatedAt", JNumber 7)]);
    try reflexivity; discriminate.
Defined.

Lemma cast_ignores_undeclared_witness :
  cast "oid0" 0 ([("total", JNumber 1500)] ++ [("seller", JObjectId "0123456789abcdef01234567")])
  = cast "oid0" 0 [("total", JNumber 1500)].
Proof. apply cast_ignores_undeclared. decide_prop. Defined.

End OrderFacts.

Module UserFacts.
Import Mongo MongoFacts User.

Lemma role_of_string_spec x r : role_of_string x = Some r <-> x = string_of_role r.
Proof. unfold role_of_string. destruct r; enum_parse_spec. Qed.

End UserFacts.
