(* ===== verification/Lifecycle.v ===== *)
(** * The order lifecycle engine

    The backend's [server.js] mounts [buyerRoutes], [sellerRoutes],
    [riderRoutes] and [adminRoutes], whose controllers move an order through
    the statuses that [models/Order.js] enumerates.  Those controllers are
    not among the sources, so this file models them from the specification
    (sections 4, 5 and 7): four operations [assign], [pick], [deliver] and
    [cancel] on an [Order.order] snapshot, each a pure function returning
    the new snapshot or a typed error, composed as a step relation; and the
    store that commits a snapshot only if its version is unchanged since it
    was read (the compare-and-swap discipline the engine relies on).

    The guards of every operation are checked in one fixed order: the
    status first ([InvalidTransition]), then the rider identifier of
    [assign] ([InvalidAssignment]), then the acting role and identity
    ([Unauthorized]). *)

From Stdlib Require Import QArith_base.
From stdpp Require Import gmap.
From S2P Require Import Prelude JsString Models.

Module Lifecycle.
Import Order.
Local Open Scope smartlink_scope.

(** ** Requests and errors *)

Inductive lifecycle_error : Type :=
| InvalidTransition
| Unauthorized
| InvalidAssignment.

#[export] Instance lifecycle_error_eq_dec : EqDecision lifecycle_error.
Proof. solve_decision. Defined.

(** The authenticated caller: its role and its user id. *)
Record actor : Type := mk_actor { actingRole : User.user_role; actingId : string }.

Inductive request : Type :=
| Assign (rider : string)
| Pick
| Deliver
| Cancel.

(** ** The operations *)

(** The accepted transition: new status and rider, [updatedAt] refreshed;
    every other path of the snapshot is kept (the version key too: no
    array path changes). *)
Definition transition (now : nat) (st : order_status) (r : option string) (o : order) : order :=
  {| _id := _id o; buyerId := buyerId o; sellerId := sellerId o; riderId := r;
     productId := productId o; total := total o; status := st;
     deliveryMode := deliveryMode o; createdAt := createdAt o; updatedAt := now;
     __v := __v o |}.

(** A rider may be assigned when it is named and is neither the buyer nor
    the seller of the order. *)
Definition valid_rider (o : order) (rider : string) : bool :=
  bool_decide (rider ≠ "" /\ Some rider ≠ buyerId o /\ Some rider ≠ sellerId o).

(** The caller is the rider assigned to the order. *)
Definition is_assigned_rider (a : actor) (o : order) : bool :=
  bool_decide (actingRole a = User.rider /\ riderId o = Some (actingId a)).

Definition assign (now : nat) (a : actor) (rider : string) (o : order)
    : result lifecycle_error order :=
  check bool_decide (status o = pending) else InvalidTransition ;;
  check valid_rider o rider else InvalidAssignment ;;
  check bool_decide (actingRole a = User.seller \/ actingRole a = User.admin) else Unauthorized ;;
  Ok (transition now assigned (Some rider) o).

Definition pick (now : nat) (a : actor) (o : order) : result lifecycle_error order :=
  check bool_decide (status o = assigned) else InvalidTransition ;;
  check is_assigned_rider a o else Unauthorized ;;
  Ok (transition now picked (riderId o) o).

Definition deliver (now : nat) (a : actor) (o : order) : result lifecycle_error order :=
  check bool_decide (status o = picked) else InvalidTransition ;;
  check is_assigned_rider a o else Unauthorized ;;
  Ok (transition now delivered (riderId o) o).

Definition cancel (now : nat) (a : actor) (o : order) : result lifecycle_error order :=
  check bool_decide (status o = pending \/ status o = assigned \/ status o = picked)
    else InvalidTransition ;;
  check bool_decide (actingRole a ≠ User.rider) else Unauthorized ;;
  Ok (transition now cancelled None o).

(** The engine's entry point: one request on one snapshot. *)
Definition apply (now : nat) (a : actor) (rq : request) (o : order)
    : result lifecycle_error order :=
  match rq with
  | Assign r => assign now a r o
  | Pick => pick now a o
  | Deliver => deliver now a o
  | Cancel => cancel now a o
  end.

(** ** The state machine *)

(** An order as a purchase creates it. *)
Definition initial (o : order) : Prop := status o = pending /\ riderId o = None.

(** One accepted request. *)
Inductive step : order -> order -> Prop :=
| step_apply now a rq o o' : apply now a rq o = Ok o' -> step o o'.

Definition reachable (o : order) : Prop := exists o0, initial o0 /\ rtc step o0 o.

Definition terminal (st : order_status) : bool :=
  match st with delivered | cancelled => true | _ => false end.

(** The invariant of a snapshot: the rider is absent exactly before
    assignment and after cancellation, and an assigned rider is named and
    is neither the buyer nor the seller. *)
Definition rider_ok (o : order) : bool :=
  match status o, riderId o with
  | (pending | cancelled), None => true
  | (assigned | picked | delivered), Some r => valid_rider o r
  | _, _ => false
  end.

(** ** The abstract transition table

    What the engine promises, forgetting roles and identities: the edges of
    the state machine of the specification. *)
Inductive request_kind : Type := KAssign | KPick | KDeliver | KCancel.

Definition kind (rq : request) : request_kind :=
  match rq with Assign _ => KAssign | Pick => KPick | Deliver => KDeliver | Cancel => KCancel end.

Definition edge (st : order_status) (k : request_kind) : option order_status :=
  match st, k with
  | pending, KAssign => Some assigned
  | assigned, KPick => Some picked
  | picked, KDeliver => Some delivered
  | (pending | assigned | picked), KCancel => Some cancelled
  | _, _ => None
  end.

(** Progress along the lifecycle: every edge raises it. *)
Definition rank (st : order_status) : nat :=
  match st with
  | pending => 0 | assigned => 1 | picked => 2 | delivered | cancelled => 3
  end.

(** ** The store and its conditional writes (section 5)

    A snapshot is stored with a version.  A request handler reads the
    snapshot, runs the engine on it ([prepare]), and writes the result back
    only if the version it read is still current ([commit]); otherwise the
    caller gets [ConflictRetryable] and must read again. *)
Record stored : Type := mk_stored { doc : order; version : nat }.

Inductive store_error : Type :=
| NotFound
| ConflictRetryable
| Rejected (e : lifecycle_error).

Abbreviation store := (gmap string stored).

Definition prepare (now : nat) (a : actor) (rq : request) (s : store) (id : string)
    : result store_error (nat * order) :=
  match s !! id with
  | None => Err NotFound
  | Some cur =>
      match apply now a rq (doc cur) with
      | Ok o' => Ok (version cur, o')
      | Err e => Err (Rejected e)
      end
  end.

Definition commit (s : store) (id : string) (expected : nat) (o : order)
    : result store_error store :=
  match s !! id with
  | None => Err NotFound
  | Some cur =>
      check bool_decide (version cur = expected) else ConflictRetryable ;;
      Ok (<[id := mk_stored o (S expected)]> s)
  end.

(** A request handled with nothing interleaved between read and write. *)
Definition handle (now : nat) (a : actor) (rq : request) (s : store) (id : string)
    : result store_error store :=
  vo <-? prepare now a rq s id ;;
  commit s id vo.1 vo.2.

(** Every stored snapshot satisfies the invariant. *)
Definition store_ok (s : store) : Prop := map_Forall (fun _ st => rider_ok (doc st) = true) s.

(** ** Sample snapshots

    The order of the specification's scenario (section 8): buyer [B1],
    seller [S1], pending, no rider. *)
Definition scenario_order : order :=
  {| _id := "O1"; buyerId := Some "B1"; sellerId := Some "S1"; riderId := None;
     productId := Some "P1"; total := Some 1500%Q; status := pending;
     deliveryMode := Some local; createdAt := 0; updatedAt := 0; __v := 0 |}.

Definition scenario_store : store := {[ "O1" := mk_stored scenario_order 0 ]}.

End Lifecycle.

(** * Properties of the engine *)

Module LifecycleFacts.
Import Order Lifecycle.
Local Open Scope smartlink_scope.
Local Open Scope smartlink_scope.

(** ** Accepted requests, branch by branch *)

(** What an accepted request was and what it did: the guards it passed
    and the snapshot it produced. *)
Theorem apply_Ok_inv now a rq o o' :
  apply now a rq o = Ok o' ->
  (exists r, rq = Assign r /\ status o = pending /\ valid_rider o r = true /\
     (actingRole a = User.seller \/ actingRole a = User.admin) /\
     o' = transition now assigned (Some r) o) \/
  (rq = Pick /\ status o = assigned /\ is_assigned_rider a o = true /\
     o' = transition now picked (riderId o) o) \/
  (rq = Deliver /\ status o = picked /\ is_assigned_rider a o = true /\
     o' = transition now delivered (riderId o) o) \/
  (rq = Cancel /\ (status o = pending \/ status o = assigned \/ status o = picked) /\
     actingRole a ≠ User.rider /\ o' = transition now cancelled None o).
Proof.
  destruct rq as [r| | |]; simpl; unfold assign, pick, deliver, cancel; intros H;
    unfold_results; naive_solver.
Qed.

Lemma valid_rider_transition now st r o x :
  valid_rider (transition now st r o) x = valid_rider o x.
Proof. reflexivity. Qed.

(** ** The invariant *)

(** Every accepted request keeps the rider invariant. *)
Theorem apply_preserves_rider_ok now a rq o o' :
  rider_ok o = true -> apply now a rq o = Ok o' -> rider_ok o' = true.
Proof.
  intros Hok H.
  apply apply_Ok_inv in H as [(r&->&Hs&Hv&_&->)|[(->&Hs&_&->)|[(->&Hs&_&->)|(->&_&_&->)]]];
    unfold rider_ok in *; simpl; rewrite ?Hs in Hok; try done;
    destruct (riderId o); done.
Qed.

Lemma step_preserves_rider_ok o o' : step o o' -> rider_ok o = true -> rider_ok o' = true.
Proof. intros [now a rq ?? H] Hok. eauto using apply_preserves_rider_ok. Qed.

Lemma initial_rider_ok o : initial o -> rider_ok o = true.
Proof. intros [Hs Hr]. unfold rider_ok. by rewrite Hs, Hr. Qed.

(** Every order reachable from a new one satisfies the invariant: the
    rider is absent exactly when the order is pending or cancelled, and an
    assigned rider is named and is neither the buyer nor the seller. *)
Lemma rtc_step_preserves_rider_ok o o' :
  rtc step o o' -> rider_ok o = true -> rider_ok o' = true.
Proof. induction 1; eauto using step_preserves_rider_ok. Qed.

(** A property that every accepted request keeps holds along every run. *)
Lemma rtc_step_invariant (P : order -> bool) o o' :
  (forall o1 o2, step o1 o2 -> P o1 = true -> P o2 = true) ->
  rtc step o o' -> P o = true -> P o' = true.
Proof. intros Hstep. induction 1; eauto. Qed.

(** C4. The rider invariant holds on every order reachable from a newly
    created one: a pending or cancelled order has no rider, and an
    assigned, picked or delivered order has a rider who is named and is
    neither its buyer nor its seller. *)
Theorem reachable_rider_ok o : reachable o -> rider_ok o = true.
Proof.
  intros (o0 & [Hs Hr] & Hsteps).
  apply (rtc_step_invariant rider_ok o0); [|done|by unfold rider_ok; rewrite Hs, Hr].
  intros o1 o2 [now a rq ?? H] Hok.
  destruct rq as [r| | |]; simpl in H; unfold assign, pick, deliver, cancel in H;
    unfold_results; unfold rider_ok in *; simpl; rewrite ?valid_rider_transition; try done;
    match goal with Hst : status ?x = _ |- _ => rewrite Hst in Hok; destruct (riderId x) end; done.
Qed.

(** ** Refinement of the transition table *)

(** C24. Every accepted request follows an edge of the table. *)
Theorem apply_refines_edge now a rq o o' :
  apply now a rq o = Ok o' -> edge (status o) (kind rq) = Some (status o').
Proof.
  intros H.
  apply apply_Ok_inv in H as [(r&->&Hs&_&_&->)|[(->&Hs&_&->)|[(->&Hs&_&->)|(->&Hs&_&->)]]];
    simpl; rewrite ?Hs; try done.
  destruct Hs as [-> | [-> | ->]]; done.
Qed.

(** C25. [InvalidTransition] is returned exactly for the requests that have no
    edge from the order's status. *)
Theorem invalid_transition_iff now a rq o :
  apply now a rq o = Err InvalidTransition <-> edge (status o) (kind rq) = None.
Proof.
  split.
  - intros H. destruct (edge (status o) (kind rq)) as [st|] eqn:He; [exfalso|done].
    destruct rq; simpl in H; unfold assign, pick, deliver, cancel in H;
      repeat (apply guard_or_Err in H as [[Hb ?]|[_ H]];
              [apply bool_decide_eq_false in Hb || idtac; try discriminate|]);
      try discriminate; destruct (status o); simpl in He; naive_solver.
  - intros He. destruct rq, (status o) eqn:Hs; simpl in He; try discriminate;
      simpl; unfold assign, pick, deliver, cancel; rewrite Hs; reflexivity.
Qed.

(** [delivered] and [cancelled] are terminal: every request on them fails
    with [InvalidTransition]. *)
Theorem terminal_rejects now a rq o :
  terminal (status o) = true -> apply now a rq o = Err InvalidTransition.
Proof.
  intros Ht. apply invalid_transition_iff.
  destruct (status o), rq; simpl in *; done.
Qed.

(** ** Error branches *)

(** C30. On a pending order, naming the buyer or the seller as the rider fails
    with [InvalidAssignment], whatever the caller's role. *)
Theorem assign_party_rejected now a r o :
  status o = pending -> (Some r = buyerId o \/ Some r = sellerId o) ->
  assign now a r o = Err InvalidAssignment.
Proof.
  intros Hs Hr. unfold assign. rewrite Hs. simpl.
  assert (valid_rider o r = false) as ->; [|done].
  apply bool_decide_eq_false. naive_solver.
Qed.

(** C31. [pick] and [deliver] by anyone but the assigned rider fail with
    [Unauthorized], even when the caller has the rider role. *)
Theorem wrong_rider_unauthorized now a o :
  riderId o <> Some (actingId a) ->
  (status o = assigned -> pick now a o = Err Unauthorized) /\
  (status o = picked -> deliver now a o = Err Unauthorized).
Proof.
  intros Hr. assert (is_assigned_rider a o = false) as Ha
    by (apply bool_decide_eq_false; naive_solver).
  split; intros Hs; unfold pick, deliver; rewrite Hs, Ha; reflexivity.
Qed.

(** A rider cannot cancel; buyers, sellers and admins can cancel any order
    that is not terminal, and the cancellation clears the rider. *)
Theorem cancel_spec now a o :
  terminal (status o) = false ->
  cancel now a o =
    if decide (actingRole a = User.rider) then Err Unauthorized
    else Ok (transition now cancelled None o).
Proof.
  intros Ht. unfold cancel.
  rewrite (bool_decide_eq_true_2 (status o = pending \/ status o = assigned \/ status o = picked))
    by (destruct (status o); simpl in Ht; naive_solver).
  simpl. unfold guard_or. destruct (decide (actingRole a = User.rider)) as [E|E];
    [rewrite bool_decide_eq_false_2 by naive_solver|rewrite bool_decide_eq_true_2 by done]; reflexivity.
Qed.

(** ** The delivery path *)

(** From a new order, [assign] by a seller or an admin, then [pick] and
    [deliver] by the assigned rider, end in [delivered] with the rider of
    the assignment. *)
Theorem delivery_path now1 now2 now3 a rid o :
  initial o -> valid_rider o rid = true ->
  (actingRole a = User.seller \/ actingRole a = User.admin) ->
  exists o3,
    (o1 <-? assign now1 a rid o ;;
     o2 <-? pick now2 (mk_actor User.rider rid) o1 ;;
     deliver now3 (mk_actor User.rider rid) o2) = Ok o3 /\
    status o3 = delivered /\ riderId o3 = Some rid.
Proof.
  intros [Hs _] Hv Ha. unfold assign. rewrite Hs, Hv. simpl.
  rewrite bool_decide_eq_true_2 by done. simpl.
  unfold pick, deliver, is_assigned_rider. simpl.
  rewrite bool_decide_eq_true_2 by done. simpl.
  rewrite bool_decide_eq_true_2 by done. simpl. eexists; split; [reflexivity|done].
Qed.

(** ** Termination *)

Lemma step_rank o o' : step o o' -> rank (status o) < rank (status o').
Proof.
  intros [now a rq o1 o2 H].
  apply apply_Ok_inv in H as [(?&_&Hs&_&_&->)|[(_&Hs&_&->)|[(_&Hs&_&->)|(_&Hs&_&->)]]];
    simpl; rewrite ?Hs; simpl; try lia.
  destruct Hs as [-> | [-> | ->]]; simpl; lia.
Qed.

(** C26. No order goes through more than three accepted requests: every
    sequence of steps is bounded by the ranks of its ends. *)
Theorem steps_bounded n o o' : nsteps step n o o' -> n + rank (status o) <= 3.
Proof.
  intros Hn. cut (n + rank (status o) <= rank (status o')).
  { intros. destruct (status o'); simpl in *; lia. }
  induction Hn as [|n o1 o2 o3 Hstep _ IH]; [lia|].
  apply step_rank in Hstep. lia.
Qed.

(** ** What a step keeps *)

(** A step changes only the status, the rider and [updatedAt]: the id, the
    parties, the product, the total, the delivery mode and [createdAt] are
    those of the order as created. *)
Theorem step_keeps_immutable o o' :
  step o o' ->
  _id o' = _id o /\ buyerId o' = buyerId o /\ sellerId o' = sellerId o /\
  productId o' = productId o /\ total o' = total o /\
  deliveryMode o' = deliveryMode o /\ createdAt o' = createdAt o.
Proof.
  intros [now a rq ?? H].
  apply apply_Ok_inv in H as [(?&_&_&_&_&->)|[(_&_&_&->)|[(_&_&_&->)|(_&_&_&->)]]];
    done.
Qed.

(** Under the invariant, the rider is absent exactly on pending and
    cancelled orders. *)
Theorem rider_absent_iff o :
  rider_ok o = true -> (riderId o = None <-> status o = pending \/ status o = cancelled).
Proof.
  unfold rider_ok. destruct (status o), (riderId o); naive_solver.
Qed.

(** ** The scenario of the specification *)

(** Section 8: on order [{pending, rider none, buyer B1, seller S1}],
    [assign R1] by the seller assigns R1; [pick] by R2 is refused;
    [pick] by R1 is accepted; [cancel] by the rider is refused; [cancel] by
    the buyer cancels and clears the rider. *)
Example spec_scenario :
  let o0 := mk_order "o1" (Some "B1") (Some "S1") None None None pending None 0 0 0 in
  match assign 1 (mk_actor User.seller "S1") "R1" o0 with
  | Err _ => False
  | Ok o1 =>
      status o1 = assigned /\ riderId o1 = Some "R1" /\
      pick 2 (mk_actor User.rider "R2") o1 = Err Unauthorized /\
      match pick 3 (mk_actor User.rider "R1") o1 with
      | Err _ => False
      | Ok o2 =>
          status o2 = picked /\
          cancel 4 (mk_actor User.rider "R1") o2 = Err Unauthorized /\
          match cancel 5 (mk_actor User.buyer "B1") o2 with
          | Ok o3 => status o3 = cancelled /\ riderId o3 = None
          | Err _ => False
          end
      end
  end.
Proof. vm_compute. repeat split. Qed.

(** ** The store *)

(** C27. A handled request keeps every stored snapshot well formed. *)
Theorem handle_preserves_store_ok now a rq s id s' :
  store_ok s -> handle now a rq s id = Ok s' -> store_ok s'.
Proof.
  intros Hok H. unfold handle, prepare, commit in H.
  destruct (s !! id) as [cur|] eqn:Hcur; [|done]. simpl in H.
  destruct (apply now a rq (doc cur)) as [o'|] eqn:Ha; [|done]. simpl in H.
  unfold_results.
  apply map_Forall_insert_2; [|done]. simpl.
  eapply apply_preserves_rider_ok; [|done]. exact (Hok id cur Hcur).
Qed.

(** C28. Two handlers that read the same snapshot and both had their request
    accepted by the engine: once the first has committed, the commit of
    the second is refused with [ConflictRetryable]; no update is lost. *)
Theorem concurrent_commit_conflict now1 now2 a1 a2 rq1 rq2 s id v1 o1 v2 o2 s1 :
  prepare now1 a1 rq1 s id = Ok (v1, o1) ->
  prepare now2 a2 rq2 s id = Ok (v2, o2) ->
  commit s id v1 o1 = Ok s1 ->
  commit s1 id v2 o2 = Err ConflictRetryable.
Proof.
  unfold prepare, commit. intros H1 H2 H3.
  destruct (s !! id) as [cur|]; [|done].
  destruct (apply now1 a1 rq1 (doc cur)); [|done].
  destruct (apply now2 a2 rq2 (doc cur)); [|done].
  injection H1 as <- <-. injection H2 as <- <-. simpl in H3. unfold_results.
  rewrite lookup_insert_eq. simpl.
  rewrite bool_decide_eq_false_2 by lia. reflexivity.
Qed.

(** ** Liveness: every live order can still be delivered *)

(** The accepted requests of the happy path, one lemma per request. *)
Lemma assign_step now r o :
  status o = pending -> valid_rider o r = true ->
  step o (transition now assigned (Some r) o).
Proof.
  intros Hs Hv. apply (step_apply now (mk_actor User.seller "") (Assign r)).
  simpl. unfold assign. by rewrite Hs, Hv.
Qed.

Lemma pick_step now a o :
  status o = assigned -> is_assigned_rider a o = true ->
  step o (transition now picked (riderId o) o).
Proof. intros Hs Ha. apply (step_apply now a Pick). simpl. unfold pick. by rewrite Hs, Ha. Qed.

Lemma deliver_step now a o :
  status o = picked -> is_assigned_rider a o = true ->
  step o (transition now delivered (riderId o) o).
Proof. intros Hs Ha. apply (step_apply now a Deliver). simpl. unfold deliver. by rewrite Hs, Ha. Qed.

(** A rider name that is neither the buyer's nor the seller's: longer
    than both. *)
Definition fresh_rider (o : order) : string :=
  String "r" (default "" (buyerId o) +:+ default "" (sellerId o)).

Lemma fresh_rider_valid o : valid_rider o (fresh_rider o) = true.
Proof.
  unfold valid_rider, fresh_rider. apply bool_decide_eq_true_2.
  split_and!; [done| |]; intros H;
    [destruct (buyerId o) as [b|] eqn:E | destruct (sellerId o) as [b|] eqn:E];
    simplify_eq; apply (f_equal String.length) in H; simpl in H;
    rewrite JsFacts.length_append in H; lia.
Qed.

Lemma riderId_of_rider_ok o :
  rider_ok o = true -> status o = assigned \/ status o = picked -> exists r, riderId o = Some r.
Proof. unfold rider_ok. destruct (status o), (riderId o); naive_solver. Qed.

(** C11. Liveness: an order reachable from a new one that is not yet
    delivered or cancelled can still be delivered: some sequence of
    accepted requests (assign a rider, pick, deliver) leads to
    [delivered].  No reachable order is stuck short of completion. *)
Theorem reachable_can_deliver o :
  reachable o -> terminal (status o) = false ->
  exists o', rtc step o o' /\ status o' = delivered.
Proof.
  intros (o0 & Hi & Hsteps) Ht.
  assert (Hok : rider_ok o = true) by eauto using rtc_step_preserves_rider_ok, initial_rider_ok.
  assert (Hrider : forall o' r, riderId o' = Some r -> is_assigned_rider (mk_actor User.rider r) o' = true)
    by (intros o' r Hr; apply bool_decide_eq_true_2; simpl; auto).
  destruct (status o) eqn:Hs; try discriminate Ht.
  - set (a := mk_actor User.rider (fresh_rider o)).
    set (o1 := transition 0 assigned (Some (fresh_rider o)) o).
    set (o2 := transition 0 picked (riderId o1) o1).
    exists (transition 0 delivered (riderId o2) o2). split; [|reflexivity].
    eapply rtc_l; [apply (assign_step 0); [done|apply fresh_rider_valid]|].
    eapply rtc_l; [apply (pick_step 0 a); [done|by apply Hrider]|].
    apply rtc_once, (deliver_step 0 a); [done|by apply Hrider].
  - destruct (riderId_of_rider_ok o Hok) as [r Hr]; [by left|].
    set (o1 := transition 0 picked (riderId o) o).
    exists (transition 0 delivered (riderId o1) o1). split; [|reflexivity].
    eapply rtc_l; [apply (pick_step 0 (mk_actor User.rider r)); [done|by apply Hrider]|].
    apply rtc_once, (deliver_step 0 (mk_actor User.rider r)); [done|by apply Hrider].
  - destruct (riderId_of_rider_ok o Hok) as [r Hr]; [by right|].
    exists (transition 0 delivered (riderId o) o). split; [|reflexivity].
    apply rtc_once, (deliver_step 0 (mk_actor User.rider r)); [done|by apply Hrider].
Qed.

(** ** Instances on the scenario's order *)

Definition seller_S1 : actor := mk_actor User.seller "S1".
Definition buyer_B1 : actor := mk_actor User.buyer "B1".

Lemma reachable_rider_ok_witness :
  rider_ok (transition 1 assigned (Some "R1") scenario_order) = true.
Proof.
  apply reachable_rider_ok. exists scenario_order. split; [split; reflexivity|].
  apply rtc_once. apply (step_apply 1 seller_S1 (Assign "R1")). reflexivity.
Defined.

Lemma apply_refines_edge_witness :
  exists o', apply 1 seller_S1 (Assign "R1") scenario_order = Ok o' /\
    edge (status scenario_order) (kind (Assign "R1")) = Some (status o').
Proof.
  eexists. split; [reflexivity|]. eapply (apply_refines_edge 1 seller_S1 (Assign "R1")). reflexivity.
Defined.

Lemma steps_bounded_witness :
  1 + rank (status scenario_order) <= 3.
Proof.
  apply (steps_bounded 1 scenario_order (transition 1 assigned (Some "R1") scenario_order)).
  eapply nsteps_l; [|apply nsteps_O]. apply (step_apply 1 seller_S1 (Assign "R1")). reflexivity.
Defined.

Lemma handle_preserves_store_ok_witness :
  exists s', handle 1 seller_S1 (Assign "R1") scenario_store "O1" = Ok s' /\ store_ok s'.
Proof.
  eexists. split; [reflexivity|].
  eapply (handle_preserves_store_ok 1 seller_S1 (Assign "R1") scenario_store "O1"); [|reflexivity].
  apply map_Forall_singleton. reflexivity.
Defined.

Lemma concurrent_commit_conflict_witness :
  exists v1 o1 v2 o2 s1,
    prepare 1 seller_S1 (Assign "R1") scenario_store "O1" = Ok (v1, o1) /\
    prepare 2 buyer_B1 Cancel scenario_store "O1" = Ok (v2, o2) /\
    commit scenario_store "O1" v1 o1 = Ok s1 /\
    commit s1 "O1" v2 o2 = Err ConflictRetryable.
Proof.
  do 5 eexists. split; [reflexivity|]. split; [reflexivity|]. split; [reflexivity|].
  eapply (concurrent_commit_conflict 1 2 seller_S1 buyer_B1 (Assign "R1") Cancel scenario_store "O1"); reflexivity.
Defined.

Lemma reachable_can_deliver_witness :
  exists o', rtc step scenario_order o' /\ status o' = delivered.
Proof.
  apply reachable_can_deliver; [|reflexivity].
  exists scenario_order. split; [split; reflexivity|apply rtc_refl].
Defined.

Lemma assign_party_rejected_witness :
  assign 1 seller_S1 "B1" scenario_order = Err InvalidAssignment.
Proof. apply assign_party_rejected; [reflexivity|left; reflexivity]. Defined.

Lemma wrong_rider_unauthorized_witness :
  pick 2 (mk_actor User.rider "R2") (transition 1 assigned (Some "R1") scenario_order) = Err Unauthorized.
Proof. apply (wrong_rider_unauthorized 2 (mk_actor User.rider "R2")); [discriminate|reflexivity]. Defined.

End LifecycleFacts.
