(* ===== verification/Auth.v ===== *)
(** * Authentication: the User model's password hook and the auth routes

    [models/User.js] hashes the password in a [pre("save")] hook and checks
    it in [matchPassword]; [routes/auth.js] validates the bodies of
    [POST /register] and [POST /login] with express-validator before the
    controllers (not among the sources) run.

    The hashing library (bcryptjs) is an interface, [Hasher]: what the model
    relies on of [bcrypt.hash] and [bcrypt.compare].  The salt that
    [bcrypt.genSalt(10)] draws is an input of each save.

    The hook is an [async] function that takes [next]:
<<
      if (!this.isModified("password")) next();
      const salt = await bcrypt.genSalt(10);
      this.password = await bcrypt.hash(this.password, salt);
>>
    Mongoose (kareem) continues the save at the first of two signals: the
    call of [next], or the settling of the promise the function returns.
    Without a [return] after [next()], the hook goes on hashing after the
    save has been allowed to proceed.  [Hook] models one save as a sequence
    of events: the hook's own ([Next], [SetPassword], [Resolve]) and the
    write of the document by the save ([Persist]), which the scheduler may
    place at any point after the save was allowed to proceed.  The theorems
    show that a first save stores a hash that [matchPassword] accepts, and
    that a save that does not touch the password still rehashes it, which a
    following save then writes: the user can no longer log in.

    [AuthRoutes] reads a body field as the bytes of its UTF-8 encoding;
    validator.js's [isLength] counts the characters, less the variation
    selectors, and [AuthRoutesFacts] proves that count right against the
    UTF-8 encoding [utf8] of a list of code points. *)

From Stdlib.micromega Require Import ZifyN.
From S2P Require Import Prelude JsString Models.

(** ** The hashing library *)

Class Hasher (salt : Type) := {
  hash : string -> salt -> string;
  compare : string -> string -> bool;
  (** [bcrypt.compare(p, await bcrypt.hash(p, s))] is true; *)
  compare_hash : forall p s, compare p (hash p s) = true;
  (** a digest is accepted only for the password it was made from; *)
  compare_sound : forall p h, compare p h = true -> exists s, h = hash p s;
  hash_inj : forall p p' s s', hash p s = hash p' s' -> p = p';
  (** a digest is never the password itself. *)
  hash_not_fixed : forall p s, hash p s <> p
}.

Module Hook.

Section Hook.
Context {salt : Type} `{!Hasher salt}.

(** The document of one user: the in-memory copy, whether its
    [password] path is modified, and the password the database holds. *)
Record user_doc : Type := mk_user_doc {
  mem_password : option string;
  dirty : bool;
  db_password : option string
}.

Inductive event : Type :=
| Next          (** the hook calls [next()] *)
| SetPassword   (** [this.password = await bcrypt.hash(this.password, salt)] *)
| Resolve       (** the hook's promise settles *)
| Persist.      (** the save writes the modified paths and resets them *)

(** The events the hook itself emits, in program order. *)
Definition hook_trace (d : user_doc) : list event :=
  (if negb (dirty d) then [Next] else []) ++ [SetPassword; Resolve].

(** The state of a save in progress: the document, and whether the save
    was allowed to proceed. *)
Record save_state : Type := mk_save_state { doc : user_doc; proceeded : bool }.

Inductive save_error : Type :=
| IllegalArguments   (** [bcrypt.hash(undefined, salt)] rejects *)
| PersistTooEarly.   (** a write scheduled before the save may proceed *)

(** One event.  [SetPassword] on an unset password rejects the hook's
    promise: before the save proceeded the save fails with it, after it
    the rejection reaches the already called [next] and is dropped. *)
Definition run_event (s : salt) (st : save_state) (e : event)
    : result save_error save_state :=
  let d := doc st in
  match e with
  | Next | Resolve => Ok (mk_save_state d true)
  | SetPassword =>
      match mem_password d with
      | Some p => Ok (mk_save_state (mk_user_doc (Some (hash p s)) true (db_password d))
                                    (proceeded st))
      | None => if proceeded st then Ok st else Err IllegalArguments
      end
  | Persist =>
      if proceeded st then
        Ok (mk_save_state
              (mk_user_doc (mem_password d) false
                           (if dirty d then mem_password d else db_password d))
              true)
      else Err PersistTooEarly
  end.

Fixpoint run (s : salt) (st : save_state) (es : list event)
    : result save_error save_state :=
  match es with
  | [] => Ok st
  | e :: es' =>
      match run_event s st e with
      | Ok st' => run s st' es'
      | Err err => Err err
      end
  end.

(** The interleavings of the hook's events with the single write: the
    write inserted at every position. *)
Fixpoint insert_everywhere (x : event) (es : list event) : list (list event) :=
  match es with
  | [] => [[x]]
  | e :: es' => (x :: e :: es') :: map (cons e) (insert_everywhere x es')
  end.

Definition schedules (d : user_doc) : list (list event) :=
  insert_everywhere Persist (hook_trace d).

(** [user.save()] with the salt [s] under one schedule [es]. *)
Definition save (s : salt) (d : user_doc) (es : list event) : result save_error user_doc :=
  match run s (mk_save_state d false) es with
  | Ok st => Ok (doc st)
  | Err e => Err e
  end.

(** [userSchema.methods.matchPassword]: [bcrypt.compare] with the
    password of the document at hand; on an unset password it rejects. *)
Definition matchPassword (stored : option string) (entered : string)
    : result save_error bool :=
  match stored with
  | Some h => Ok (compare entered h)
  | None => Err IllegalArguments
  end.

End Hook.
End Hook.

(** ** The validators of [routes/auth.js] *)

Module AuthRoutes.

(** A JSON request body whose fields are strings; a repeated key keeps
    its last value, as [JSON.parse] does. *)
Abbreviation req_body := (list (string * string)).

(** The value an express-validator chain checks: the field as a string,
    [""] for a missing field ([toString(undefined)]). *)
Definition field (b : req_body) (k : string) : string :=
  match list_find (fun kv => kv.1 = k) (reverse b) with
  | Some (_, kv) => kv.2
  | None => ""
  end.

(** [exists()]: the field is not [undefined]. *)
Definition present (b : req_body) (k : string) : bool :=
  bool_decide (is_Some (list_find (fun kv => kv.1 = k) b)).

(** A UTF-8 continuation byte does not start a character. *)
Definition is_continuation (c : ascii) : bool :=
  let n := nat_of_ascii c in (128 <=? n) && (n <? 192).

Fixpoint lead_bytes (s : string) : nat :=
  match s with
  | EmptyString => 0
  | String c rest => (if is_continuation c then 0 else 1) + lead_bytes rest
  end.

(** The UTF-8 encodings of the variation selectors U+FE0E and U+FE0F. *)
Definition selector_fe0e : string := String "239" (String "184" (String "142" EmptyString)).
Definition selector_fe0f : string := String "239" (String "184" (String "143" EmptyString)).

Fixpoint selectors (s : string) : nat :=
  match s with
  | EmptyString => 0
  | String _ rest =>
      (if String.prefix selector_fe0e s || String.prefix selector_fe0f s then 1 else 0)
      + selectors rest
  end.

(** validator.js [isLength]: the characters of the string, less the
    variation selectors (each starts with one lead byte). *)
Definition char_length (s : string) : nat := lead_bytes s - selectors s.

(** One failed check: the field and the [withMessage] text. *)
Record field_error : Type := mk_field_error { param : string; msg : string }.

Definition check_field (ok : bool) (p m : string) : list field_error :=
  if ok then [] else [mk_field_error p m].

(** [body('role').isIn(['buyer', 'seller', 'rider'])] *)
Definition register_roles : list string := ["buyer"; "seller"; "rider"].

Section Validators.
(** validator.js [isEmail], a library grammar. *)
Variable isEmail : string -> bool.

(** [router.post('/register', [...], register)]: every chain runs and the
    errors are collected in the order of the array. *)
Definition register_errors (b : req_body) : list field_error :=
  check_field (bool_decide (field b "name" <> "")) "name" "Name is required" ++
  check_field (isEmail (field b "email")) "email" "Please include a valid email" ++
  check_field (6 <=? char_length (field b "password")) "password"
    "Password must be at least 6 characters" ++
  check_field (bool_decide (field b "phone" <> "")) "phone" "Phone number is required" ++
  check_field (bool_decide (field b "role" ∈ register_roles)) "role" "Invalid role".

(** [router.post('/login', [...], login)] *)
Definition login_errors (b : req_body) : list field_error :=
  check_field (isEmail (field b "email")) "email" "Please include a valid email" ++
  check_field (present b "password") "password" "Password is required".

End Validators.
End AuthRoutes.

(** ** A hasher satisfying the laws, for concrete runs

    It prefixes the password with bcrypt's version and cost tag. *)
Definition bcrypt_tag : string := "$2a$10$".

#[export] Program Instance tag_hasher : Hasher unit := {|
  hash p _ := bcrypt_tag +:+ p;
  compare p h := bool_decide (h = bcrypt_tag +:+ p)
|}.
Next Obligation. intros p u. by apply bool_decide_eq_true_2. Qed.
Next Obligation. intros p h H. apply bool_decide_eq_true in H. by exists tt. Qed.
Next Obligation. intros p p' u u' H. by apply (inj (String.app bcrypt_tag)) in H. Qed.
Next Obligation.
  intros p u H. apply (f_equal String.length) in H. revert H.
  unfold bcrypt_tag. cbv [String.append]. simpl. lia.
Qed.

(** * Properties *)

(** [run_schedules Hin Hs]: split the membership of a schedule in the
    list of interleavings into one case per schedule and run each. *)
Ltac run_schedules Hin Hs :=
  repeat (apply elem_of_cons in Hin as [->|Hin]); [..|by apply elem_of_nil in Hin];
  unfold Hook.save in Hs; simpl in Hs.

Module HookFacts.
Import Hook.

Section WithHasher.
Context {salt : Type} `{!Hasher salt}.

(** A user password is not itself a bcrypt digest. *)
Definition not_a_digest (p : string) : Prop := forall q s, p <> hash q s.

Lemma compare_other p q s : q <> p -> compare p (hash q s) = false.
Proof.
  intros Hq. destruct (compare p (hash q s)) eqn:E; [|done].
  apply compare_sound in E as [s' E]. by apply hash_inj in E.
Qed.

(** The first save of a password (a new user, or a changed password):
    in every interleaving the save can run, it writes the hash of the
    password, and the password matches what was written. *)
Theorem first_save_stores_hash s d es d' p :
  dirty d = true -> mem_password d = Some p ->
  es ∈ schedules d -> save s d es = Ok d' ->
  db_password d' = Some (hash p s) /\ matchPassword (db_password d') p = Ok true.
Proof.
  intros Hd Hp Hin Hs. unfold schedules, hook_trace in Hin. rewrite Hd in Hin. simpl in Hin.
  run_schedules Hin Hs; rewrite ?Hd, ?Hp in Hs; simpl in Hs; try discriminate.
  injection Hs as <-. simpl. by rewrite compare_hash.
Qed.

(** C2. A save that does not touch the password: [next()] without [return]
    lets the hook hash the stored digest again, in every interleaving the
    save can run; the document the caller holds is left with the digest of
    the digest, which the password does not match. *)
Theorem unmodified_save_rehashes s d es d' p s0 :
  not_a_digest p ->
  dirty d = false -> mem_password d = Some (hash p s0) ->
  es ∈ schedules d -> save s d es = Ok d' ->
  mem_password d' = Some (hash (hash p s0) s) /\ matchPassword (mem_password d') p = Ok false.
Proof.
  intros Hnd Hd Hp Hin Hs. unfold schedules, hook_trace in Hin. rewrite Hd in Hin. simpl in Hin.
  run_schedules Hin Hs; rewrite ?Hd, ?Hp in Hs; simpl in Hs; try discriminate;
    injection Hs as <-; simpl; rewrite compare_other; try done;
    intros E; by apply (Hnd p s0).
Qed.

(** C1. The next save then writes a digest the password does not match,
    whatever the interleavings of both saves: the user is locked out. *)
Theorem second_save_locks_out s s' d es d' es' d'' p s0 :
  not_a_digest p ->
  dirty d = false -> mem_password d = Some (hash p s0) -> db_password d = Some (hash p s0) ->
  es ∈ schedules d -> save s d es = Ok d' ->
  es' ∈ schedules d' -> save s' d' es' = Ok d'' ->
  matchPassword (db_password d'') p = Ok false.
Proof.
  intros Hnd Hd Hp Hdb Hin Hs Hin' Hs'.
  unfold schedules, hook_trace in Hin. rewrite Hd in Hin. simpl in Hin.
  run_schedules Hin Hs; rewrite ?Hd, ?Hp, ?Hdb in Hs; simpl in Hs; try discriminate;
    injection Hs as <-; unfold schedules, hook_trace in Hin'; simpl in Hin';
    run_schedules Hin' Hs'; try discriminate; injection Hs' as <-; simpl;
    rewrite compare_other; try done; intros E; by eapply Hnd.
Qed.

End WithHasher.

(** *** Instances, with the tag hasher *)

(** A stored user whose password is the digest of ["pw"], and the hook's
    events of a save that does not touch it, with the write last. *)
Definition stored_doc : Hook.user_doc :=
  Hook.mk_user_doc (Some (hash "pw" tt)) false (Some (hash "pw" tt)).
Definition resave : list Hook.event := [Hook.Next; Hook.SetPassword; Hook.Resolve; Hook.Persist].

Lemma pw_not_a_digest : not_a_digest (salt:=unit) "pw".
Proof. intros q [] H. vm_compute in H. discriminate. Qed.

Lemma second_save_locks_out_witness :
  exists d' d'', Hook.save tt stored_doc resave = Ok d' /\ Hook.save tt d' resave = Ok d'' /\
    Hook.matchPassword (Hook.db_password d'') "pw" = Ok false.
Proof.
  do 2 eexists. split; [reflexivity|]. split; [reflexivity|].
  eapply (second_save_locks_out tt tt stored_doc resave _ resave _ "pw" tt);
    [apply pw_not_a_digest|reflexivity|reflexivity|reflexivity|in_list|reflexivity|in_list|reflexivity].
Defined.

Lemma unmodified_save_rehashes_witness :
  exists d', Hook.save tt stored_doc resave = Ok d' /\
    Hook.mem_password d' = Some (hash (hash "pw" tt) tt) /\
    Hook.matchPassword (Hook.mem_password d') "pw" = Ok false.
Proof.
  eexists. split; [reflexivity|].
  eapply (unmodified_save_rehashes tt stored_doc resave _ "pw" tt);
    [apply pw_not_a_digest|reflexivity|reflexivity|in_list|reflexivity].
Defined.

Lemma first_save_stores_hash_witness :
  exists d', Hook.save tt (Hook.mk_user_doc (Some "pw") true None)
                       [Hook.SetPassword; Hook.Resolve; Hook.Persist] = Ok d' /\
    Hook.db_password d' = Some (hash "pw" tt) /\ Hook.matchPassword (Hook.db_password d') "pw" = Ok true.
Proof.
  eexists. split; [reflexivity|].
  eapply (first_save_stores_hash tt (Hook.mk_user_doc (Some "pw") true None)
            [Hook.SetPassword; Hook.Resolve; Hook.Persist] _ "pw");
    [reflexivity|reflexivity|in_list|reflexivity].
Defined.

End HookFacts.

Module AuthRoutesFacts.
Import AuthRoutes.

Lemma check_field_nil ok p m : check_field ok p m = [] <-> ok = true.
Proof. unfold check_field. destruct ok; naive_solver. Qed.

Lemma lead_bytes_cons c s :
  lead_bytes (String c s) = (if is_continuation c then 0 else 1) + lead_bytes s.
Proof. reflexivity. Qed.

Lemma selectors_cons c s :
  selectors (String c s) =
  (if String.prefix selector_fe0e (String c s) || String.prefix selector_fe0f (String c s)
   then 1 else 0) + selectors s.
Proof. reflexivity. Qed.

Lemma prefix_cons a b s1 s2 :
  String.prefix (String a s1) (String b s2) =
  if ascii_dec a b then String.prefix s1 s2 else false.
Proof. reflexivity. Qed.

(** A string that does not start with byte 239 starts no selector. *)
Lemma no_selector_at c s :
  c <> "239"%char ->
  String.prefix selector_fe0e (String c s) || String.prefix selector_fe0f (String c s) = false.
Proof.
  intros Hc. unfold selector_fe0e, selector_fe0f. rewrite !prefix_cons.
  by destruct (ascii_dec "239" c) as [<-|].
Qed.

(** Every selector starts on a lead byte. *)
Lemma selectors_le_lead_bytes s : selectors s <= lead_bytes s.
Proof.
  induction s as [|c s IH]; [done|]. rewrite selectors_cons, lead_bytes_cons.
  destruct (decide (c = "239"%char)) as [->|Hc].
  - replace (is_continuation "239") with false by reflexivity. case_match; lia.
  - rewrite (no_selector_at c s Hc). destruct (is_continuation c); lia.
Qed.

(** ** [isLength] against a reference: the UTF-8 encoding *)

Local Open Scope N_scope.

(** The bytes of one code point, as the JSON body carries it. *)
Definition utf8_char (c : N) : string :=
  if c <? 128 then String (ascii_of_N c) EmptyString
  else if c <? 2048 then
    String (ascii_of_N (192 + c / 64)) (String (ascii_of_N (128 + c mod 64)) EmptyString)
  else if c <? 65536 then
    String (ascii_of_N (224 + c / 4096)) (String (ascii_of_N (128 + (c / 64) mod 64))
      (String (ascii_of_N (128 + c mod 64)) EmptyString))
  else
    String (ascii_of_N (240 + c / 262144)) (String (ascii_of_N (128 + (c / 4096) mod 64))
      (String (ascii_of_N (128 + (c / 64) mod 64)) (String (ascii_of_N (128 + c mod 64)) EmptyString))).

Fixpoint utf8 (cps : list N) : string :=
  match cps with [] => EmptyString | c :: cs => utf8_char c +:+ utf8 cs end.

(** U+FE0E and U+FE0F. *)
Definition is_selector (c : N) : bool := (c =? 65038) || (c =? 65039).

Lemma byte_eq n m : n < 256 -> m < 256 -> ascii_of_N n = ascii_of_N m <-> n = m.
Proof.
  intros Hn Hm. split; [|by intros ->]. intros H. apply (f_equal N_of_ascii) in H.
  rewrite !N_ascii_embedding in H; lia.
Qed.

Lemma is_continuation_byte n :
  n < 256 -> is_continuation (ascii_of_N n) = (128 <=? n) && (n <? 192).
Proof.
  intros Hn. unfold is_continuation, nat_of_ascii. rewrite N_ascii_embedding by done.
  destruct (Nat.leb_spec 128 (N.to_nat n)), (N.leb_spec 128 n); try lia;
    destruct (Nat.ltb_spec (N.to_nat n) 192), (N.ltb_spec n 192); lia.
Qed.

Lemma no_selector_at_byte n s :
  n < 256 -> n <> 239 ->
  String.prefix selector_fe0e (String (ascii_of_N n) s) ||
  String.prefix selector_fe0f (String (ascii_of_N n) s) = false.
Proof.
  intros Hn H239. apply no_selector_at. change "239"%char with (ascii_of_N 239).
  rewrite byte_eq; lia.
Qed.

Lemma lead_bytes_app s t : lead_bytes (s +:+ t) = (lead_bytes s + lead_bytes t)%nat.
Proof. induction s as [|c s IH]; [done|]. rewrite JsFacts.append_cons, !lead_bytes_cons. lia. Qed.

(** A continuation byte, [128 + x mod 64]. *)
Lemma continuation_byte x : is_continuation (ascii_of_N (128 + x mod 64)) = true.
Proof.
  pose proof (N.mod_lt x 64 ltac:(lia)). rewrite is_continuation_byte by lia.
  apply andb_true_intro; split; [apply N.leb_le|apply N.ltb_lt]; lia.
Qed.

Lemma lead_byte x : x < 128 \/ 192 <= x < 256 -> is_continuation (ascii_of_N x) = false.
Proof.
  intros Hx. rewrite is_continuation_byte by lia.
  destruct (N.leb_spec 128 x), (N.ltb_spec x 192); simpl; lia.
Qed.

(** One lead byte per code point. *)
Lemma lead_bytes_utf8_char c : c < 1114112 -> lead_bytes (utf8_char c) = 1%nat.
Proof.
  intros Hc. unfold utf8_char.
  destruct (N.ltb_spec c 128); [|destruct (N.ltb_spec c 2048); [|destruct (N.ltb_spec c 65536)]];
    cbn [lead_bytes]; rewrite ?continuation_byte, lead_byte; try reflexivity;
    [left; lia | right; lia | right; lia | right; lia].
Qed.

Lemma prefix3 a1 a2 a3 b1 b2 b3 t :
  String.prefix (String a1 (String a2 (String a3 EmptyString))) (String b1 (String b2 (String b3 t))) =
  bool_decide (a1 = b1 /\ a2 = b2 /\ a3 = b3).
Proof.
  rewrite !prefix_cons. assert (String.prefix "" t = true) as -> by (destruct t; done).
  case_bool_decide as H; [destruct H as (-> & -> & ->); repeat destruct ascii_dec; congruence|].
  destruct (ascii_dec a1 b1), (ascii_dec a2 b2), (ascii_dec a3 b3); naive_solver.
Qed.

(** The bytes of [utf8_char c] before a tail [t], range by range. *)
Lemma utf8_char_one c t : c < 128 -> utf8_char c +:+ t = String (ascii_of_N c) t.
Proof. intros Hc. unfold utf8_char. destruct (N.ltb_spec c 128); [done|lia]. Qed.

Lemma utf8_char_two c t :
  128 <= c < 2048 ->
  utf8_char c +:+ t = String (ascii_of_N (192 + c / 64)) (String (ascii_of_N (128 + c mod 64)) t).
Proof.
  intros Hc. unfold utf8_char. destruct (N.ltb_spec c 128); [lia|].
  destruct (N.ltb_spec c 2048); [done|lia].
Qed.

Lemma utf8_char_three c t :
  2048 <= c < 65536 ->
  utf8_char c +:+ t = String (ascii_of_N (224 + c / 4096))
    (String (ascii_of_N (128 + (c / 64) mod 64)) (String (ascii_of_N (128 + c mod 64)) t)).
Proof.
  intros Hc. unfold utf8_char. destruct (N.ltb_spec c 128); [lia|].
  destruct (N.ltb_spec c 2048); [lia|]. destruct (N.ltb_spec c 65536); [done|lia].
Qed.

Lemma utf8_char_four c t :
  65536 <= c ->
  utf8_char c +:+ t = String (ascii_of_N (240 + c / 262144))
    (String (ascii_of_N (128 + (c / 4096) mod 64))
      (String (ascii_of_N (128 + (c / 64) mod 64)) (String (ascii_of_N (128 + c mod 64)) t))).
Proof.
  intros Hc. unfold utf8_char. destruct (N.ltb_spec c 128); [lia|].
  destruct (N.ltb_spec c 2048); [lia|]. destruct (N.ltb_spec c 65536); [lia|done].
Qed.

(** No selector starts on a continuation byte. *)
Lemma no_selector_at_continuation x t :
  String.prefix selector_fe0e (String (ascii_of_N (128 + x mod 64)) t) ||
  String.prefix selector_fe0f (String (ascii_of_N (128 + x mod 64)) t) = false.
Proof. apply no_selector_at_byte; lia. Qed.

Lemma is_selector_false c : c < 65038 \/ 65039 < c -> is_selector c = false.
Proof. intros Hc. unfold is_selector. destruct (N.eqb_spec c 65038), (N.eqb_spec c 65039); simpl; lia. Qed.

(** A three-byte code point starts a selector exactly when it is one. *)
Lemma selector_at_three_bytes c t :
  2048 <= c < 65536 ->
  let b1 := ascii_of_N (224 + c / 4096) in
  let b2 := ascii_of_N (128 + (c / 64) mod 64) in
  let b3 := ascii_of_N (128 + c mod 64) in
  String.prefix selector_fe0e (String b1 (String b2 (String b3 t))) ||
  String.prefix selector_fe0f (String b1 (String b2 (String b3 t))) = is_selector c.
Proof.
  intros Hc b1 b2 b3. unfold selector_fe0e, selector_fe0f, is_selector. rewrite !prefix3.
  change "239"%char with (ascii_of_N 239). change "184"%char with (ascii_of_N 184).
  change "142"%char with (ascii_of_N 142). change "143"%char with (ascii_of_N 143).
  subst b1 b2 b3.
  rewrite (bool_decide_ext _ (c = 65038))
    by (rewrite (byte_eq 239), (byte_eq 184), (byte_eq 142) by lia; lia).
  rewrite (bool_decide_ext (_ /\ _ /\ ascii_of_N 143 = _) (c = 65039))
    by (rewrite (byte_eq 239), (byte_eq 184), (byte_eq 143) by lia; lia).
  destruct (N.eqb_spec c 65038) as [->|]; [done|]. rewrite bool_decide_eq_false_2 by done.
  destruct (N.eqb_spec c 65039) as [->|]; [done|]. by rewrite bool_decide_eq_false_2.
Qed.

(** The selectors are found exactly where a selector is encoded. *)
Lemma selectors_utf8_char c t :
  c < 1114112 ->
  selectors (utf8_char c +:+ t) = ((if is_selector c then 1 else 0) + selectors t)%nat.
Proof.
  intros Hc.
  destruct (N.lt_ge_cases c 128); [|destruct (N.lt_ge_cases c 2048); [|destruct (N.lt_ge_cases c 65536)]].
  - rewrite utf8_char_one, selectors_cons, no_selector_at_byte, is_selector_false by lia. done.
  - rewrite utf8_char_two, !selectors_cons, no_selector_at_byte, no_selector_at_continuation,
      is_selector_false by lia. done.
  - rewrite utf8_char_three, !selectors_cons, selector_at_three_bytes, !no_selector_at_continuation by lia.
    by destruct (is_selector c).
  - rewrite utf8_char_four, !selectors_cons, no_selector_at_byte, !no_selector_at_continuation,
      is_selector_false by lia. done.
Qed.

(** [isLength] on a UTF-8 body: the code points, less the variation
    selectors. *)
Lemma char_length_utf8 cps :
  Forall (fun c => c < 1114112) cps ->
  char_length (utf8 cps) = length (List.filter (fun c => negb (is_selector c)) cps).
Proof.
  unfold char_length. induction 1 as [|c cps Hc _ IH]; [done|]. simpl.
  rewrite lead_bytes_app, lead_bytes_utf8_char, selectors_utf8_char by done.
  pose proof (selectors_le_lead_bytes (utf8 cps)).
  destruct (is_selector c); simpl; lia.
Qed.

Local Close Scope N_scope.

Lemma elem_of_check_field x ok p m :
  x ∈ check_field ok p m <-> ok = false /\ x = mk_field_error p m.
Proof. unfold check_field. destruct ok; rewrite ?list_elem_of_singleton; set_solver. Qed.

Section WithEmail.
Variable isEmail : string -> bool.

Lemma field_error_inj p m p' m' :
  mk_field_error p m = mk_field_error p' m' <-> p = p' /\ m = m'.
Proof. split; [by intros [=]|by intros [-> ->]]. Qed.

Lemma not_ne_empty (s : string) : ¬ s ≠ "" <-> s = "".
Proof. split; [apply dec_stable|naive_solver]. Qed.

(** Which failures [register_errors] reports: one per failed chain. *)
Ltac register_errors_cases :=
  unfold register_errors;
  rewrite !elem_of_app, !elem_of_check_field, !bool_decide_eq_false, Nat.leb_gt, !not_ne_empty,
    !field_error_inj.

(** C9. The /register route reports "Invalid role" exactly when the
    role field is none of "buyer", "seller" and "rider"; a body asking
    for "admin" (or leaving the role out) is always rejected. *)
Theorem register_role_error_iff b :
  mk_field_error "role" "Invalid role" ∈ register_errors isEmail b <->
  field b "role" ∉ ["buyer"; "seller"; "rider"].
Proof.
  register_errors_cases. unfold register_roles. naive_solver.
Qed.

(** C10. The /register route reports "Password must be at least 6
    characters" exactly when the password, sent as the UTF-8 encoding of
    the code points [cps], has fewer than six code points other than the
    variation selectors U+FE0E and U+FE0F: validator.js counts
    characters, not bytes. *)
Theorem register_password_counts_characters b cps :
  Forall (fun c => (c < 1114112)%N) cps ->
  field b "password" = utf8 cps ->
  mk_field_error "password" "Password must be at least 6 characters" ∈ register_errors isEmail b <->
  (length (List.filter (fun c => negb (is_selector c)) cps) < 6)%nat.
Proof.
  intros Hcps Hpw. register_errors_cases. rewrite Hpw, char_length_utf8 by done.
  naive_solver.
Qed.


(** The login body passes when the e-mail is valid and a password field
    is present, even an empty one. *)
Theorem login_errors_nil_iff b :
  login_errors isEmail b = [] <->
  isEmail (field b "email") = true /\ is_Some (list_find (fun kv => kv.1 = "password") b).
Proof.
  unfold login_errors, present. rewrite app_nil, !check_field_nil, bool_decide_eq_true.
  naive_solver.
Qed.

End WithEmail.


Lemma register_role_error_iff_witness :
  mk_field_error "role" "Invalid role" ∈ register_errors (fun _ => true) [("role", "admin")].
Proof. apply (register_role_error_iff (fun _ => true) [("role", "admin")]). decide_prop. Defined.


(** "hi", a heart and the emoji selector: eight bytes, three characters. *)
Definition heart_body : req_body :=
  [("password", utf8 [104; 105; 9829; 65039]%N)].

Lemma register_password_counts_characters_witness :
  String.length (field heart_body "password") = 8%nat /\
  mk_field_error "password" "Password must be at least 6 characters"
    ∈ register_errors (fun _ => true) heart_body.
Proof.
  split; [vm_compute; reflexivity|].
  apply (register_password_counts_characters (fun _ => true) heart_body [104; 105; 9829; 65039]%N).
  - repeat constructor.
  - reflexivity.
  - vm_compute. lia.
Defined.

End AuthRoutesFacts.
