(* ===== verification/AdminOrders.v ===== *)
(** * The orders page of the admin dashboard

    [src/admin/src/app/orders/page.tsx] renders a table of sample orders
    (the [orders] array) filtered by a search box and a status drop-down.
    The page keeps four pieces of React state; the [Header] component
    toggles two of them, the input and the select set the others.  A row is
    rendered by reading [statusConfig[order.status]]; a status with no entry
    would make [.icon] of [undefined] throw, so rendering is an [option].

    [OrdersPage] holds the data, the state and its events, the filter and
    the rendered rows, the four stats cards, the classes and labels left in
    (the icon, the colour classes and the upper-cased payment) and the
    motion and layout markup left out.  The theorems characterise the filter, show it
    case-insensitive, show the page renders in every state, and relate the
    statuses of the page to those the Order schema accepts. *)

From S2P Require Import Prelude JsString Models.

Module OrdersPage.

(** ** Data *)

(** An element of the [orders] array. *)
Record order_row : Type := mk_order_row {
  id : string;
  customer : string;
  email : string;
  amount : string;
  status : string;
  date : string;
  items : nat;
  payment : string
}.

Definition orders : list order_row := [
  mk_order_row "ORD-2024-001" "Adebayo Johnson" "adebayo@email.com" "₦15,230" "delivered" "2024-01-15" 5 "paid";
  mk_order_row "ORD-2024-002" "Bisi Adekoya" "bisi@email.com" "₦8,750" "processing" "2024-01-15" 3 "paid";
  mk_order_row "ORD-2024-003" "Chukwu Okafor" "chukwu@email.com" "₦22,180" "out-for-delivery" "2024-01-14" 7 "paid";
  mk_order_row "ORD-2024-004" "Folake Bello" "folake@email.com" "₦3,420" "pending" "2024-01-14" 2 "pending";
  mk_order_row "ORD-2024-005" "Ibrahim Musa" "ibrahim@email.com" "₦12,890" "delivered" "2024-01-13" 4 "paid";
  mk_order_row "ORD-2024-006" "Grace Eze" "grace@email.com" "₦18,500" "cancelled" "2024-01-13" 6 "refunded";
  mk_order_row "ORD-2024-007" "Yusuf Bello" "yusuf@email.com" "₦9,200" "processing" "2024-01-12" 3 "paid";
  mk_order_row "ORD-2024-008" "Amina Sani" "amina@email.com" "₦25,600" "delivered" "2024-01-12" 8 "paid"
].

(** The lucide icons the page draws. *)
Inductive icon : Type := CheckCircle | Package | Truck | Clock | XCircle.

Record status_style : Type := mk_status_style {
  icon_of : icon; bg : string; text : string; label : string
}.

(** [statusConfig[k]]: [undefined] for a key the object does not have. *)
Definition statusConfig (k : string) : option status_style :=
  if decide (k = "delivered") then
    Some (mk_status_style CheckCircle "bg-green-500/20" "text-green-500" "DELIVERED")
  else if decide (k = "processing") then
    Some (mk_status_style Package "bg-blue-500/20" "text-blue-500" "PROCESSING")
  else if decide (k = "out-for-delivery") then
    Some (mk_status_style Truck "bg-orange-500/20" "text-orange-500" "OUT FOR DELIVERY")
  else if decide (k = "pending") then
    Some (mk_status_style Clock "bg-yellow-500/20" "text-yellow-500" "PENDING")
  else if decide (k = "cancelled") then
    Some (mk_status_style XCircle "bg-red-500/20" "text-red-500" "CANCELLED")
  else None.

(** The values of the status [<select>]. *)
Definition status_options : list string :=
  ["all"; "pending"; "processing"; "out-for-delivery"; "delivered"; "cancelled"].

(** ** State and events *)

Record state : Type := mk_state {
  isSidebarOpen : bool;
  isDarkMode : bool;
  searchQuery : string;
  selectedStatus : string
}.

(** [useState(true)], [useState(true)], [useState('')], [useState('all')] *)
Definition initial_state : state := mk_state true true "" "all".

Inductive event : Type :=
| ToggleSidebar                  (** Header's menu button *)
| ToggleDarkMode                 (** Header's sun/moon button *)
| SetSearchQuery (q : string)    (** the search input's [onChange] *)
| SetSelectedStatus (v : string). (** the select's [onChange] *)

Definition handle (st : state) (ev : event) : state :=
  match ev with
  | ToggleSidebar => mk_state (negb (isSidebarOpen st)) (isDarkMode st) (searchQuery st) (selectedStatus st)
  | ToggleDarkMode => mk_state (isSidebarOpen st) (negb (isDarkMode st)) (searchQuery st) (selectedStatus st)
  | SetSearchQuery q => mk_state (isSidebarOpen st) (isDarkMode st) q (selectedStatus st)
  | SetSelectedStatus v => mk_state (isSidebarOpen st) (isDarkMode st) (searchQuery st) v
  end.

Definition run (st : state) (evs : list event) : state := fold_left handle evs st.

(** ** The filter *)

Definition matchesSearch (q : string) (o : order_row) : bool :=
  Js.includes (Js.toLowerCase (customer o)) (Js.toLowerCase q) ||
  Js.includes (Js.toLowerCase (id o)) (Js.toLowerCase q).

Definition matchesStatus (sel : string) (o : order_row) : bool :=
  bool_decide (sel = "all") || bool_decide (status o = sel).

Definition filter_orders (q sel : string) (l : list order_row) : list order_row :=
  List.filter (fun o => matchesSearch q o && matchesStatus sel o) l.

Definition filteredOrders (st : state) : list order_row :=
  filter_orders (searchQuery st) (selectedStatus st) orders.

(** ** Rendering *)

(** [order.customer.split(' ').map(n => n[0]).join('')] *)
Definition initials (name : string) : string :=
  Js.join_opt "" (map Js.char_at0 (Js.split " " name)).

(** The payment badge's classes. *)
Definition payment_class (p : string) : string :=
  if decide (p = "paid") then "bg-green-500/20 text-green-500"
  else if decide (p = "pending") then "bg-yellow-500/20 text-yellow-500"
  else "bg-gray-500/20 text-gray-500".

(** What a table row shows, its markup and animations aside. *)
Record row_view : Type := mk_row_view {
  row_id : string;
  row_initials : string;
  row_customer : string;
  row_email : string;
  row_amount : string;
  row_icon : icon;
  row_status_class : string;
  row_status_label : string;
  row_payment_class : string;
  row_payment_label : string;
  row_date : string
}.

Definition render_row (o : order_row) : option row_view :=
  match statusConfig (status o) with
  | None => None
  | Some cfg =>
      Some (mk_row_view (id o) (initials (customer o)) (customer o) (email o) (amount o)
              (icon_of cfg) (bg cfg +:+ " " +:+ text cfg) (label cfg)
              (payment_class (payment o)) (Js.toUpperCase (payment o)) (date o))
  end.

(** [filteredOrders.map(...)]; [None] when a row throws. *)
Definition render_rows (st : state) : option (list row_view) :=
  mapM render_row (filteredOrders st).

(** ** The stats cards *)

(** The four cards above the table: a constant array.  Their classes are
    built from [stat.color] by interpolation. *)
Record stat_card : Type := mk_stat_card {
  card_label : string; card_value : string; card_icon : icon; card_color : string
}.

Definition stat_cards : list stat_card := [
  mk_stat_card "Total Orders" "12,847" Package "blue";
  mk_stat_card "Pending" "234" Clock "yellow";
  mk_stat_card "Processing" "567" Truck "orange";
  mk_stat_card "Delivered" "11,890" CheckCircle "green"
].

Record card_view : Type := mk_card_view {
  card_view_class : string;
  card_view_label : string;
  card_label_class : string;
  card_view_value : string;
  card_value_class : string;
  card_icon_box : string;
  card_view_icon : icon;
  card_icon_class : string
}.

Definition render_card (isDarkMode : bool) (c : stat_card) : card_view :=
  mk_card_view
    ((if isDarkMode then "bg-gray-900 border-gray-800" else "bg-white border-gray-200") +:+ " border rounded-2xl p-6")
    (card_label c) "text-gray-400 text-sm mb-1" (card_value c) "text-2xl font-bold text-white"
    ("w-12 h-12 bg-" +:+ card_color c +:+ "-500/10 rounded-xl flex items-center justify-center")
    (card_icon c) ("w-6 h-6 text-" +:+ card_color c +:+ "-500").

Definition render_cards (st : state) : list card_view := map (render_card (isDarkMode st)) stat_cards.

End OrdersPage.

(** * Properties *)

Module OrdersPageFacts.
Import OrdersPage.

(** ** The filter *)

Lemma filter_orders_elem q sel l o :
  o ∈ filter_orders q sel l <->
  o ∈ l /\ matchesSearch q o = true /\ matchesStatus sel o = true.
Proof.
  unfold filter_orders. rewrite !list_elem_of_In, filter_In, andb_true_iff. naive_solver.
Qed.

(** C20. The table shows exactly the sample orders whose customer or id
    contains the search text, both lower-cased, and whose status is the
    one selected, every status when the drop-down reads "all". *)
Theorem filtered_orders_spec st o :
  o ∈ filteredOrders st <->
  o ∈ orders /\
  ((exists p r, Js.toLowerCase (customer o) = p +:+ Js.toLowerCase (searchQuery st) +:+ r) \/
   (exists p r, Js.toLowerCase (id o) = p +:+ Js.toLowerCase (searchQuery st) +:+ r)) /\
  (selectedStatus st = "all" \/ status o = selectedStatus st).
Proof.
  unfold filteredOrders. rewrite filter_orders_elem. unfold matchesSearch, matchesStatus.
  rewrite !orb_true_iff, !includes_spec, !bool_decide_eq_true. done.
Qed.

(** The rows shown keep the order of the [orders] array. *)
Theorem filter_orders_sublist q sel l : filter_orders q sel l `sublist_of` l.
Proof.
  unfold filter_orders. induction l as [|o l IH]; simpl; [constructor|].
  destruct (_ && _); by constructor.
Qed.

Lemma matchesSearch_empty o : matchesSearch "" o = true.
Proof. unfold matchesSearch. simpl. by rewrite includes_empty. Qed.

(** With an empty search and ["all"] every row is shown. *)
Theorem filter_orders_all l : filter_orders "" "all" l = l.
Proof.
  unfold filter_orders. induction l as [|o l IH]; simpl; [done|].
  by rewrite matchesSearch_empty, IH.
Qed.

(** The search ignores the case of the query. *)
Theorem filter_orders_case_insensitive q sel l :
  filter_orders (Js.toLowerCase q) sel l = filter_orders q sel l.
Proof.
  unfold filter_orders, matchesSearch. by rewrite JsFacts.toLowerCase_idem.
Qed.

(** With an empty search, a status of the drop-down other than ["all"]
    shows exactly the rows of that status. *)
Theorem filter_orders_by_status sel l :
  sel <> "all" ->
  filter_orders "" sel l = List.filter (fun o => bool_decide (status o = sel)) l.
Proof.
  intros Hsel. unfold filter_orders, matchesStatus.
  induction l as [|o l IH]; simpl; [done|].
  rewrite matchesSearch_empty, IH, bool_decide_eq_false_2 by done. done.
Qed.

(** ** Rendering *)

Lemma orders_have_config : Forall (fun o => is_Some (statusConfig (status o))) orders.
Proof. repeat constructor; eexists; reflexivity. Qed.

(** C21. The page renders in every state: each row it can show has a
    [statusConfig] entry, so no row throws. *)
Theorem render_rows_total st : is_Some (render_rows st).
Proof.
  unfold render_rows. apply mapM_is_Some_2, Forall_forall. intros o Ho.
  unfold filteredOrders, filter_orders in Ho.
  apply list_elem_of_In, filter_In in Ho as [Ho _]. apply list_elem_of_In in Ho.
  destruct (proj1 (Forall_forall _ _) orders_have_config o Ho) as [cfg Hc].
  simpl. unfold render_row. rewrite Hc. by eexists.
Qed.

(** The Header's toggles change the layout, never the rows. *)
Theorem toggles_keep_rows st :
  filteredOrders (handle st ToggleSidebar) = filteredOrders st /\
  filteredOrders (handle st ToggleDarkMode) = filteredOrders st.
Proof. done. Qed.

(** The avatar shows at most one letter per word of the name. *)
Theorem initials_length name :
  String.length (initials name) <= length (Js.split " " name).
Proof.
  unfold initials, Js.join_opt. rewrite length_join_empty, map_map.
  induction (Js.split " " name) as [|w ws IH]; simpl; [done|].
  destruct w; simpl; lia.
Qed.

(** The cards show constants: neither the search nor the status filter
    changes them, and the "Pending" card's 234 is not the number of
    pending orders in [orders]. *)
Lemma render_cards_ignore_filter st q v :
  render_cards (handle st (SetSearchQuery q)) = render_cards st /\
  render_cards (handle st (SetSelectedStatus v)) = render_cards st /\
  length (List.filter (fun o => bool_decide (status o = "pending")) orders) = 1.
Proof. split_and!; reflexivity. Qed.

(** ** The page and the Order schema *)

(** Three of the sample orders carry a status the Order schema rejects:
    the page's ["processing"] and ["out-for-delivery"] are no values of
    [models/Order.js]'s enum. *)
Theorem page_statuses_outside_schema :
  map id (List.filter (fun o => bool_decide (Order.status_of_string (status o) = None)) orders)
  = ["ORD-2024-002"; "ORD-2024-003"; "ORD-2024-007"].
Proof. vm_compute. reflexivity. Qed.

End OrdersPageFacts.
