(* ===== verification/Seed.v ===== *)
(** * The seed script

    [src/smartlink_backend/seed.js] connects to the database, finds a user
    with the seller role or creates one, deletes every product and
    inserts four sample products, each extended with the seller's id;
    any error is caught and turns into exit code 1.

    The script requires [./models/Product] and [./models/User], which sit
    next to it in [smartlink_backend/] and are not in the repository, so
    the class [SeedModels] states what the script uses of them and of
    [mongoose.connect]: each call resolves with a value or rejects with an
    error, and may change the database, whose type is left open.  The
    script runs in [M], a state, error and trace monad: the state is the
    database and the calls made so far, in order; a rejected call stops
    the [try] block and leaves its state to the [catch].  Every theorem
    holds for every instance. *)

From Stdlib Require Import QArith_base.
From S2P Require Import Prelude Models.

(** What [seed.js] calls.  [user_id] is [seller._id]. *)
Class SeedModels (DB User : Type) : Type := {
  connect : option string -> DB -> result string unit * DB;
  user_findOne_seller : DB -> result string (option User);
  user_create : Mongo.js_object -> DB -> result string User * DB;
  user_id : User -> Mongo.js_value;
  product_deleteMany : DB -> result string unit * DB;
  product_insertMany : list Mongo.js_object -> DB -> result string unit * DB
}.

Module Seed.
Import Mongo.

(** ** The data of the script *)

Definition sampleProducts : list js_object := [
  [("name", JString "Fresh Tomatoes (1kg)");
   ("description", JString "Farm fresh tomatoes from local farms");
   ("price", JNumber 800); ("category", JString "food");
   ("images", JArray [JString "https://images.pexels.com/photos/1327838/pexels-photo-1327838.jpeg"]);
   ("stock", JNumber 50);
   ("rating", JObject [("average", JNumber 4.5); ("count", JNumber 23)])];
  [("name", JString "Samsung Galaxy A54");
   ("description", JString "Brand new Samsung Galaxy A54 with 128GB storage");
   ("price", JNumber 285000); ("category", JString "electronics");
   ("images", JArray [JString "https://images.pexels.com/photos/788946/pexels-photo-788946.jpeg";
                      JString "https://images.pexels.com/photos/1591056/pexels-photo-1591056.jpeg"]);
   ("stock", JNumber 15);
   ("rating", JObject [("average", JNumber 4.8); ("count", JNumber 45)])];
  [("name", JString "LG 32-inch Smart TV");
   ("description", JString "LG Smart TV with WiFi and Netflix support");
   ("price", JNumber 125000); ("category", JString "electronics");
   ("images", JArray [JString "https://images.pexels.com/photos/1201996/pexels-photo-1201996.jpeg"]);
   ("stock", JNumber 8);
   ("rating", JObject [("average", JNumber 4.6); ("count", JNumber 34)])];
  [("name", JString "Men's Sneakers");
   ("description", JString "Quality imported sneakers, various sizes available");
   ("price", JNumber 15000); ("category", JString "fashion");
   ("images", JArray [JString "https://images.pexels.com/photos/1598505/pexels-photo-1598505.jpeg"]);
   ("stock", JNumber 40);
   ("rating", JObject [("average", JNumber 4.3); ("count", JNumber 56)])]
].

(** The object passed to [User.create] when there is no seller. *)
Definition seller_input : js_object := [
  ("name", JString "Test Seller"); ("email", JString "seller@test.com");
  ("password", JString "password123"); ("phone", JString "08012345678");
  ("role", JString "seller"); ("location", JString "Lagos, Nigeria");
  ("businessName", JString "Test Store");
  ("avatar", JString "https://images.pexels.com/photos/220453/pexels-photo-220453.jpeg")
].

(** [sampleProducts.map(product => ({ ...product, seller: seller._id }))] *)
Definition productsWithSeller (id : js_value) : list js_object :=
  map (fun p => p ++ [("seller", id)]) sampleProducts.

(** ** The calls and the script's monad *)

Inductive call : Type :=
| Connect (uri : option string)        (** [mongoose.connect(process.env.MONGODB_URI)] *)
| FindSeller                           (** [User.findOne({ role: 'seller' })] *)
| CreateUser (doc : js_object)         (** [User.create(...)] *)
| DeleteProducts                       (** [Product.deleteMany({})] *)
| InsertProducts (docs : list js_object). (** [Product.insertMany(...)] *)

Section Script.
Context {DB User : Type} `{!SeedModels DB User}.

Definition M (A : Type) : Type := DB * list call -> result string A * (DB * list call).

Definition ret {A} (a : A) : M A := fun s => (Ok a, s).

Definition bind {A B} (m : M A) (k : A -> M B) : M B :=
  fun s => match m s with
           | (Ok a, s') => k a s'
           | (Err e, s') => (Err e, s')
           end.

Notation "'do' x <- m ;; k" := (bind m (fun x => k))
  (at level 100, x name, m at next level, right associativity).

(** [await] on a model call: the call is recorded, then it resolves or
    rejects. *)
Definition await {A} (c : call) (f : DB -> result string A * DB) : M A :=
  fun '(d, tr) => let '(r, d') := f d in (r, (d', tr ++ [c])).

(** The body of the [try] block of [seedDatabase], lines 50 to 77. *)
Definition seed_body (uri : option string) : M unit :=
  do _ <- await (Connect uri) (connect uri) ;;
  do found <- await FindSeller (fun d => (user_findOne_seller d, d)) ;;
  do seller <- match found with
               | Some u => ret u
               | None => await (CreateUser seller_input) (user_create seller_input)
               end ;;
  do _ <- await DeleteProducts product_deleteMany ;;
  await (InsertProducts (productsWithSeller (user_id seller)))
        (product_insertMany (productsWithSeller (user_id seller))).

(** [seedDatabase()]: [process.exit(0)] after the body, [process.exit(1)]
    in the [catch].  The result is the exit code, the database and the
    calls made. *)
Definition seedDatabase (uri : option string) (d : DB) : nat * DB * list call :=
  match seed_body uri (d, []) with
  | (Ok _, (d', tr)) => (0, d', tr)
  | (Err _, (d', tr)) => (1, d', tr)
  end.

End Script.
End Seed.

(** * Properties *)

Module SeedFacts.
Import Mongo Seed.

Section Facts.
Context {DB User : Type} `{!SeedModels DB User}.

(** Each branch of the run as one case analysis on the calls' results. *)
Ltac run_cases :=
  unfold seedDatabase, seed_body, bind, await, ret;
  repeat (case_match; simplify_eq; cbn -[productsWithSeller sampleProducts] in *).

(** C3. A run that exits with 0 made exactly these calls, in this order:
    the connection, the seller query, [User.create] with the test seller
    only when the query found none, [deleteMany], and [insertMany] of the
    four sample products each extended with [seller] set to the id of the
    seller found or created. *)
Theorem seed_success_calls uri d d' tr :
  seedDatabase uri d = (0, d', tr) ->
  exists d1 u, fst (connect uri d) = Ok tt /\ snd (connect uri d) = d1 /\
   ((user_findOne_seller d1 = Ok (Some u) /\
     tr = [Connect uri; FindSeller; DeleteProducts;
           InsertProducts (map (fun p => p ++ [("seller", user_id u)]) sampleProducts)]) \/
    (user_findOne_seller d1 = Ok None /\ fst (user_create seller_input d1) = Ok u /\
     tr = [Connect uri; FindSeller; CreateUser seller_input; DeleteProducts;
           InsertProducts (map (fun p => p ++ [("seller", user_id u)]) sampleProducts)])).
Proof.
  run_cases; intros Hr; simplify_eq;
    repeat match goal with u : () |- _ => destruct u end;
    do 2 eexists; (split; [reflexivity|]); (split; [reflexivity|]);
    [left; split; [done|reflexivity]
    |right; match goal with Hc : user_create _ _ = _ |- _ => rewrite Hc end;
     split; [done|split; reflexivity]].
Qed.

(** C7. When no seller exists and [User.create] rejects (a duplicate
    e-mail, a failed validation), the script exits with 1 right after that
    call: [Product.deleteMany] and [Product.insertMany] are never called,
    so the products already stored are left as they were. *)
Theorem seed_create_failure_keeps_products uri d d1 d2 e :
  connect uri d = (Ok tt, d1) -> user_findOne_seller d1 = Ok None ->
  user_create seller_input d1 = (Err e, d2) ->
  seedDatabase uri d = (1, d2, [Connect uri; FindSeller; CreateUser seller_input]).
Proof.
  intros Hc Hf Hu. unfold seedDatabase, seed_body, bind, await, ret.
  rewrite Hc. cbn. rewrite Hf. cbn. rewrite Hu. reflexivity.
Qed.

(** C8. When the query finds a seller, the script never calls
    [User.create], whatever happens next, and every product it inserts
    carries that seller's id. *)
Theorem seed_reuses_existing_seller uri d u n d' tr :
  fst (connect uri d) = Ok tt -> user_findOne_seller (snd (connect uri d)) = Ok (Some u) ->
  seedDatabase uri d = (n, d', tr) ->
  (forall doc, CreateUser doc ∉ tr) /\
  (forall docs, InsertProducts docs ∈ tr ->
     docs = map (fun p => p ++ [("seller", user_id u)]) sampleProducts).
Proof.
  intros Hc Hf. destruct (connect uri d) as [r d1] eqn:E. cbn in Hc, Hf. subst r.
  unfold seedDatabase, seed_body, bind, await, ret. rewrite E. cbn. rewrite Hf. cbn.
  repeat (case_match; simplify_eq; cbn -[productsWithSeller sampleProducts] in *); intros Hr; simplify_eq;
    split; intros ? Hin; rewrite ?elem_of_cons, ?elem_of_nil in Hin; naive_solver.
Qed.

End Facts.

(** ** Instances *)

(** A small database: the sellers' ids, the e-mails in use and the
    products; [User.create] rejects an e-mail in use, as a unique index
    would. *)
Record sample_db : Type := mk_sample_db {
  seller_ids : list string; emails : list string; stored : list js_object
}.

#[local] Instance sample_models : SeedModels sample_db string := {
  connect uri d := match uri with Some _ => (Ok tt, d) | None => (Err "MongooseError", d) end;
  user_findOne_seller d := Ok (head (seller_ids d));
  user_create doc d :=
    if decide ("seller@test.com" ∈ emails d) then (Err "E11000 duplicate key", d)
    else (Ok "oid1", mk_sample_db (seller_ids d ++ ["oid1"]) (emails d ++ ["seller@test.com"]) (stored d));
  user_id u := JObjectId u;
  product_deleteMany d := (Ok tt, mk_sample_db (seller_ids d) (emails d) []);
  product_insertMany docs d := (Ok tt, mk_sample_db (seller_ids d) (emails d) (stored d ++ docs))
}.

Definition mongo_uri : option string := Some "mongodb://localhost:27017/smartlink".
Definition fresh_db : sample_db := mk_sample_db [] [] [].
Definition taken_db : sample_db := mk_sample_db [] ["seller@test.com"] [].
Definition seeded_db : sample_db := mk_sample_db ["oid7"] ["seller@test.com"] [].

Definition fresh_run : nat * sample_db * list call := seedDatabase mongo_uri fresh_db.

Lemma seed_success_calls_witness :
  exists d1 u, fst (connect mongo_uri fresh_db) = Ok tt /\ snd (connect mongo_uri fresh_db) = d1 /\
   ((user_findOne_seller d1 = Ok (Some u) /\
     fresh_run.2 = [Connect mongo_uri; FindSeller; DeleteProducts;
           InsertProducts (map (fun p => p ++ [("seller", user_id u)]) sampleProducts)]) \/
    (user_findOne_seller d1 = Ok None /\ fst (user_create seller_input d1) = Ok u /\
     fresh_run.2 = [Connect mongo_uri; FindSeller; CreateUser seller_input; DeleteProducts;
           InsertProducts (map (fun p => p ++ [("seller", user_id u)]) sampleProducts)])).
Proof. apply (seed_success_calls mongo_uri fresh_db fresh_run.1.2 fresh_run.2). vm_compute. reflexivity. Defined.

Lemma seed_create_failure_keeps_products_witness :
  seedDatabase mongo_uri taken_db = (1, taken_db, [Connect mongo_uri; FindSeller; CreateUser seller_input]).
Proof.
  apply (seed_create_failure_keeps_products mongo_uri taken_db taken_db taken_db "E11000 duplicate key");
    vm_compute; reflexivity.
Defined.

Lemma seed_reuses_existing_seller_witness :
  (forall doc, CreateUser doc ∉ (seedDatabase mongo_uri seeded_db).2) /\
  (forall docs, InsertProducts docs ∈ (seedDatabase mongo_uri seeded_db).2 ->
     docs = map (fun p => p ++ [("seller", user_id "oid7")]) sampleProducts).
Proof.
  apply (seed_reuses_existing_seller mongo_uri seeded_db "oid7"
           (seedDatabase mongo_uri seeded_db).1.1 (seedDatabase mongo_uri seeded_db).1.2);
    vm_compute; reflexivity.
Defined.

End SeedFacts.
