(* ===== verification/Server.v ===== *)
(** * The API server: its middleware stack and the port

    [src/smartlink-backend/server.js] builds an Express application as a
    stack of layers: [cors()], [express.json()], six routers mounted under
    [/api/...] and the error handler, in this order.  A request walks the
    stack: a layer whose mount path matches runs, and calls [next()] to go
    on or [next(err)] to switch to error mode, in which only error-handling
    layers run.  A request no layer answers ends in Express's final
    handler (404, or 500 for an error).

    [Server] holds the stack ([app]), the path matching of [app.use] and the
    walk ([dispatch]).  The routers' own files and [errorMiddleware.js] are
    not in the repository: a router is a Section variable [route] giving
    its outcome on the path below its mount point.  [PORT] is
    [process.env.PORT || 5000] under JavaScript truthiness. *)

From S2P Require Import Prelude JsString.

Module Server.

(** ** The stack *)

Inductive layer_kind : Type :=
| Cors                         (** [cors()] *)
| JsonParser                   (** [express.json()] *)
| Router (name : string)       (** an imported router *)
| ErrorHandler.                (** [errorHandler], four-argument middleware *)

Record layer : Type := mk_layer { mount : string; kind : layer_kind }.

#[global] Instance layer_kind_eq_dec : EqDecision layer_kind.
Proof. solve_decision. Defined.
#[global] Instance layer_eq_dec : EqDecision layer.
Proof. solve_decision. Defined.

(** [app.use(...)], lines 17 to 29; [app.use(fn)] mounts at ["/"]. *)
Definition app : list layer := [
  mk_layer "/" Cors;
  mk_layer "/" JsonParser;
  mk_layer "/api/auth" (Router "authRoutes");
  mk_layer "/api/products" (Router "productRoutes");
  mk_layer "/api/buyers" (Router "buyerRoutes");
  mk_layer "/api/sellers" (Router "sellerRoutes");
  mk_layer "/api/riders" (Router "riderRoutes");
  mk_layer "/api/admin" (Router "adminRoutes");
  mk_layer "/" ErrorHandler
].

(** ** Requests and outcomes *)

Record request : Type := mk_request {
  req_method : string;
  req_path : string;
  req_json : bool;         (** [Content-Type: application/json] *)
  req_body_valid : bool    (** the body parses as JSON *)
}.

(** What a router does with a request. *)
Inductive route_outcome : Type :=
| Respond                  (** a handler sent a response *)
| Pass                     (** no route matched: [next()] *)
| Fail (err : string).     (** a handler called [next(err)] *)

Inductive outcome : Type :=
| Preflight                (** [cors()] answers [OPTIONS] with 204 *)
| Handled (router : string) (sub : string)
| HandledError (err : string)     (** [errorHandler] answered *)
| NotFound                        (** final handler, 404 *)
| Unhandled (err : string).       (** final handler, 500 *)

(** ** Path matching *)

(** [app.use(p, ...)] matches [p] itself and the paths below it; matching
    ignores case (Express's default). *)
Definition path_matches (p path : string) : bool :=
  bool_decide (p = "/") ||
  bool_decide (Js.toLowerCase path = Js.toLowerCase p) ||
  String.prefix (Js.toLowerCase p +:+ "/") (Js.toLowerCase path).

(** The path the router sees: the mount path stripped, ["/"] if nothing is
    left. *)
Definition strip_mount (p path : string) : string :=
  if bool_decide (p = "/") then path else
  match String.substring (String.length p) (String.length path) path with
  | EmptyString => "/"
  | rest => rest
  end.

(** The [express.json()] parser: a JSON body that does not parse is
    passed on as an error. *)
Definition json_error : string := "entity.parse.failed".

Section Dispatch.
Variable route : string -> request -> route_outcome.

(** Express's [next], layer after layer; [err] is the pending error. *)
Fixpoint dispatch (ls : list layer) (rq : request) (err : option string) : outcome :=
  match ls with
  | [] => match err with None => NotFound | Some e => Unhandled e end
  | l :: ls' =>
      if negb (path_matches (mount l) (req_path rq)) then dispatch ls' rq err else
      match kind l, err with
      | ErrorHandler, Some e => HandledError e
      | ErrorHandler, None => dispatch ls' rq None
      | _, Some _ => dispatch ls' rq err
      | Cors, None =>
          if bool_decide (req_method rq = "OPTIONS") then Preflight else dispatch ls' rq None
      | JsonParser, None =>
          if req_json rq && negb (req_body_valid rq)
          then dispatch ls' rq (Some json_error) else dispatch ls' rq None
      | Router name, None =>
          let rq' := mk_request (req_method rq) (strip_mount (mount l) (req_path rq))
                                (req_json rq) (req_body_valid rq) in
          match route name rq' with
          | Respond => Handled name (req_path rq')
          | Pass => dispatch ls' rq None
          | Fail e => dispatch ls' rq (Some e)
          end
      end
  end.

Definition serve (rq : request) : outcome := dispatch app rq None.

End Dispatch.

(** ** The port *)

Inductive port : Type := PortString (p : string) | PortNumber (n : nat).

(** [process.env.PORT || 5000]: an unset or empty variable is falsy. *)
Definition PORT (env_port : option string) : port :=
  match env_port with
  | Some p => if bool_decide (p = "") then PortNumber 5000 else PortString p
  | None => PortNumber 5000
  end.

End Server.

(** * Properties *)

Module ServerFacts.
Import Server.

Definition is_router (k : layer_kind) : bool :=
  match k with Router _ => true | _ => false end.

(** ** Path matching *)

Lemma path_matches_root path : path_matches "/" path = true.
Proof. reflexivity. Qed.

Lemma path_matches_mount p path :
  p <> "/" ->
  path_matches p path = true <->
  Js.toLowerCase path = Js.toLowerCase p \/
  String.prefix (Js.toLowerCase p +:+ "/") (Js.toLowerCase path) = true.
Proof.
  intros Hp. unfold path_matches. rewrite (bool_decide_eq_false_2 _ Hp), !orb_true_iff.
  rewrite bool_decide_eq_true. intuition congruence.
Qed.

(** Two mount paths that match one path: one of them is the other or
    lies below it. *)
Lemma mounts_exclusive P a b :
  P = a \/ String.prefix (a +:+ "/") P = true ->
  P = b \/ String.prefix (b +:+ "/") P = true ->
  a = b \/ String.prefix (b +:+ "/") a = true \/ String.prefix (a +:+ "/") b = true \/
  String.prefix (a +:+ "/") (b +:+ "/") = true \/ String.prefix (b +:+ "/") (a +:+ "/") = true.
Proof.
  intros [->|Ha] [->|Hb]; auto.
  destruct (JsFacts.prefix_comparable _ _ _ Ha Hb); auto.
Qed.

Ltac app_cases H := apply list_elem_of_In in H; simpl in H; destruct_or! H; simplify_eq.
Ltac in_app := apply list_elem_of_In; simpl; tauto.

Lemma router_mount l : l ∈ app -> is_router (kind l) = true -> mount l <> "/".
Proof. intros H; app_cases H; simpl; done. Qed.

(** No path is under two of the six routers' mount points. *)
Lemma routers_disjoint path l1 l2 :
  l1 ∈ app -> l2 ∈ app -> is_router (kind l1) = true -> is_router (kind l2) = true ->
  path_matches (mount l1) path = true -> path_matches (mount l2) path = true -> l1 = l2.
Proof.
  intros H1 H2 R1 R2 M1 M2.
  apply path_matches_mount in M1, M2; [|by apply router_mount..].
  pose proof (mounts_exclusive _ _ _ M1 M2) as D. clear M1 M2.
  app_cases H1; app_cases H2; try discriminate R1; try discriminate R2; try reflexivity;
    vm_compute in D; destruct_or! D; discriminate.
Qed.

(** ** The walk *)

Section WithRoutes.
Variable route : string -> request -> route_outcome.

Lemma dispatch_skip pre ls rq err :
  Forall (fun l => path_matches (mount l) (req_path rq) = false) pre ->
  dispatch route (pre ++ ls) rq err = dispatch route ls rq err.
Proof. induction 1 as [|l pre Hl _ IH]; simpl; [done|]. by rewrite Hl. Qed.

(** A stack that ends with an error handler mounted at ["/"] leaves no
    error to Express's final handler. *)
Lemma dispatch_error_handler_last ls rq err e :
  dispatch route (ls ++ [mk_layer "/" ErrorHandler]) rq err <> Unhandled e.
Proof.
  revert err; induction ls as [|l ls IH]; intros err; simpl.
  - by destruct err.
  - repeat case_match; try done; apply IH.
Qed.

(** The walk reaches a matching router when every other layer that
    matches is an error handler, which a request without error passes. *)
Lemma dispatch_router_hit ls rq l name :
  l ∈ ls -> kind l = Router name -> path_matches (mount l) (req_path rq) = true ->
  (forall l', l' ∈ ls -> l' <> l -> path_matches (mount l') (req_path rq) = true ->
              kind l' = ErrorHandler) ->
  let rq' := mk_request (req_method rq) (strip_mount (mount l) (req_path rq))
                        (req_json rq) (req_body_valid rq) in
  route name rq' = Respond ->
  dispatch route ls rq None = Handled name (req_path rq').
Proof.
  intros Hin Hk Hm Hother rq' Hr. induction ls as [|l0 ls IH]; [by apply not_elem_of_nil in Hin|].
  destruct (decide (l0 = l)) as [->|Hne].
  - simpl. rewrite Hm, Hk. simpl. fold rq'. by rewrite Hr.
  - apply elem_of_cons in Hin as [->|Hin]; [done|].
    simpl. destruct (path_matches (mount l0) (req_path rq)) eqn:Hm0; simpl.
    + rewrite (Hother l0); [|by left|done|done]. apply IH; [done|].
      intros l' ?; apply Hother; by right.
    + apply IH; [done|]. intros l' ?; apply Hother; by right.
Qed.

(** Past [cors()] and [express.json()]: a request that is no preflight and
    whose body, when JSON, parses goes on to the routers. *)
Lemma serve_past_parsers rq :
  req_method rq <> "OPTIONS" -> (req_json rq = true -> req_body_valid rq = true) ->
  serve route rq = dispatch route (drop 2 app) rq None.
Proof.
  intros Hm Hj. unfold serve. simpl. rewrite bool_decide_eq_false_2 by done.
  destruct (req_json rq), (req_body_valid rq); simpl; naive_solver.
Qed.

(** In error mode every layer but an error handler is passed over. *)
Lemma dispatch_error_skip pre ls rq e :
  Forall (fun l => kind l <> ErrorHandler) pre ->
  dispatch route (pre ++ ls) rq (Some e) = dispatch route ls rq (Some e).
Proof.
  induction 1 as [|l pre Hl _ IH]; simpl; [done|].
  rewrite <- IH. repeat case_match; congruence.
Qed.

Definition routers : list layer := take 6 (drop 2 app).

Lemma app_split : app = [mk_layer "/" Cors; mk_layer "/" JsonParser] ++ routers ++ [mk_layer "/" ErrorHandler].
Proof. reflexivity. Qed.

(** C6. A request that is no preflight, whose JSON body parses and whose path
    lies under a router's mount point reaches that router, with the mount
    point stripped, whatever the other routers do: no other router is
    mounted above or below it. *)
Theorem serve_reaches_router rq m name :
  req_method rq <> "OPTIONS" -> (req_json rq = true -> req_body_valid rq = true) ->
  mk_layer m (Router name) ∈ app -> path_matches m (req_path rq) = true ->
  route name (mk_request (req_method rq) (strip_mount m (req_path rq))
                         (req_json rq) (req_body_valid rq)) = Respond ->
  serve route rq = Handled name (strip_mount m (req_path rq)).
Proof.
  intros Hm Hj Hin Hp Hr. rewrite serve_past_parsers by done.
  apply (dispatch_router_hit _ _ (mk_layer m (Router name))); [|done|done| |done].
  - app_cases Hin; in_app.
  - intros l' Hl' Hne Hp'. app_cases Hl'; try reflexivity; exfalso; apply Hne;
      (eapply (routers_disjoint (req_path rq)); [in_app|exact Hin|done|done|done|done]).
Qed.

(** C5. The error handler is mounted last: an error raised by the JSON parser
    or by any router is answered by it, never by Express's final handler. *)
Theorem errors_always_handled rq e : serve route rq <> Unhandled e.
Proof.
  unfold serve.
  change app with ([mk_layer "/" Cors; mk_layer "/" JsonParser;
    mk_layer "/api/auth" (Router "authRoutes"); mk_layer "/api/products" (Router "productRoutes");
    mk_layer "/api/buyers" (Router "buyerRoutes"); mk_layer "/api/sellers" (Router "sellerRoutes");
    mk_layer "/api/riders" (Router "riderRoutes"); mk_layer "/api/admin" (Router "adminRoutes")]
    ++ [mk_layer "/" ErrorHandler]).
  apply dispatch_error_handler_last.
Qed.

(** C34. A path under none of the six mount points ends in Express's 404,
    whatever the routers do. *)
Theorem unknown_path_not_found rq :
  req_method rq <> "OPTIONS" -> (req_json rq = true -> req_body_valid rq = true) ->
  (forall m name, mk_layer m (Router name) ∈ app -> path_matches m (req_path rq) = false) ->
  serve route rq = NotFound.
Proof.
  intros Hm Hj Hno. rewrite serve_past_parsers by done.
  change (drop 2 app) with (routers ++ [mk_layer "/" ErrorHandler]).
  rewrite dispatch_skip; [done|].
  apply Forall_forall. intros l Hl. app_cases Hl; eapply Hno; in_app.
Qed.

(** C33. A JSON body that does not parse never reaches a router: the parser's
    error goes straight to the error handler. *)
Theorem malformed_json_rejected rq :
  req_method rq <> "OPTIONS" -> req_json rq = true -> req_body_valid rq = false ->
  serve route rq = HandledError json_error.
Proof.
  intros Hm Hj Hv. unfold serve. rewrite app_split. cbn -[routers].
  rewrite bool_decide_eq_false_2, Hj, Hv by done. cbn -[routers].
  rewrite dispatch_error_skip; [done|].
  apply Forall_forall. intros l Hl. app_cases Hl; discriminate.
Qed.

(** [cors()] answers every [OPTIONS] request itself, before any router. *)
Lemma options_preflight rq : req_method rq = "OPTIONS" -> serve route rq = Preflight.
Proof. intros Hm. unfold serve. simpl. by rewrite bool_decide_eq_true_2. Qed.

End WithRoutes.

(** ** Instances *)

(** Routers that answer every request they see. *)
Definition answering : string -> request -> route_outcome := fun _ _ => Respond.

Lemma serve_reaches_router_witness :
  serve answering (mk_request "POST" "/API/Auth/login" true true) =
  Handled "authRoutes" (strip_mount "/api/auth" "/API/Auth/login").
Proof.
  apply (serve_reaches_router answering (mk_request "POST" "/API/Auth/login" true true)
           "/api/auth" "authRoutes");
    [discriminate|done|in_app|reflexivity|reflexivity].
Defined.

Lemma malformed_json_rejected_witness :
  serve answering (mk_request "POST" "/api/auth/login" true false) = HandledError json_error.
Proof. apply malformed_json_rejected; [discriminate|reflexivity|reflexivity]. Defined.

Lemma unknown_path_not_found_witness :
  serve answering (mk_request "GET" "/health" false false) = NotFound.
Proof.
  apply unknown_path_not_found; [discriminate|done|].
  intros m name Hin. app_cases Hin; reflexivity.
Defined.

(** ** The port *)

(** The server falls back to port 5000 exactly when [PORT] is unset or
    empty; any other value, ["0"] included, is passed to [listen] as it is. *)
Theorem PORT_fallback env :
  PORT env = PortNumber 5000 <-> env = None \/ env = Some "".
Proof.
  destruct env as [p|]; simpl; [|intuition congruence].
  case_bool_decide as Hp; [subst; intuition congruence|].
  split; [discriminate|]. intros [?|?]; congruence.
Qed.

End ServerFacts.
