(* ===== verification/Api.v ===== *)
(** * The auth router of routes/auth.js, and server.js at start-up

    [src/smartlink_backend/routes/auth.js] builds an [express.Router()]
    with three routes: [POST /register] and [POST /login], each an array
    of express-validator chains followed by a controller, and
    [GET /me], the [auth] middleware followed by [getMe].  The
    controllers and the middleware live in files that are not in the
    repository; the class [Controllers] states what the router needs of
    them, and every theorem here holds for every instance.

    [AuthRouter] is Express's walk over the router's routes (method and
    path matching, the handlers of a route run in order, [next()] to the
    following route), taken on its own: [server.js] mounts
    [./routes/authRoutes.js] at ["/api/auth"], a file that is not in the
    repository, and nothing in it mounts [routes/auth.js].  [Startup] is
    the top level of [server.js]: [dotenv.config()], [connectDB()] and
    [app.listen(PORT)]. *)

From S2P Require Import Prelude JsString Models Auth Server.

(** ** What the router needs of the files it imports *)

(** [controllers/authController.js] and [middleware/auth.js], as the
    router calls them.  A controller reads the body and the validators'
    errors ([validationResult(req)]); [auth] reads the [Authorization]
    header and either calls [next()] or answers itself. *)
Class Controllers : Type := {
  isEmail : string -> bool;
  register : AuthRoutes.req_body -> list AuthRoutes.field_error -> Server.route_outcome;
  login : AuthRoutes.req_body -> list AuthRoutes.field_error -> Server.route_outcome;
  auth_passes : option string -> bool;
  getMe : option string -> Server.route_outcome
}.

(** ** routes/auth.js *)

Module AuthRouter.
Import AuthRoutes.

(** The handlers the routes list, in the source's order. *)
Inductive handler : Type :=
| RegisterChecks            (** the [/register] validator array *)
| LoginChecks               (** the [/login] validator array *)
| AuthMiddleware            (** [auth] *)
| Register | Login | GetMe. (** the controllers *)

#[global] Instance handler_eq_dec : EqDecision handler.
Proof. solve_decision. Defined.

Record route : Type := mk_route { verb : string; route_path : string; handlers : list handler }.

(** [router.post('/register', ...)], [router.post('/login', ...)],
    [router.get('/me', auth, getMe)] *)
Definition routes : list route := [
  mk_route "POST" "/register" [RegisterChecks; Register];
  mk_route "POST" "/login" [LoginChecks; Login];
  mk_route "GET" "/me" [AuthMiddleware; GetMe]
].

(** A [router.get] route also answers [HEAD]. *)
Definition method_matches (verb m : string) : bool :=
  bool_decide (m = verb) || bool_decide (verb = "GET" /\ m = "HEAD").

(** path-to-regexp's defaults: case-insensitive, a trailing slash allowed. *)
Definition path_matches (p path : string) : bool :=
  bool_decide (Js.toLowerCase path = Js.toLowerCase p) ||
  bool_decide (Js.toLowerCase path = Js.toLowerCase p +:+ "/").

(** How the handlers of a route end. *)
Inductive result : Type :=
| Answered (h : handler)       (** [h] sent the response *)
| Next                         (** the last handler called [next()] *)
| Raised (h : handler) (e : string). (** [h] called [next(err)] *)

Section Chain.
Context `{Controllers}.

(** A controller's outcome, tagged with the controller. *)
Definition of_outcome (h : handler) (o : Server.route_outcome) : result :=
  match o with
  | Server.Respond => Answered h
  | Server.Pass => Next
  | Server.Fail e => Raised h e
  end.

(** The handlers of one route, in order.  The validator arrays never
    answer: they record their errors on the request and call [next()]. *)
Fixpoint run_chain (hs : list handler) (b : req_body) (tok : option string)
    (errs : list field_error) : result :=
  match hs with
  | [] => Next
  | RegisterChecks :: hs' => run_chain hs' b tok (errs ++ register_errors isEmail b)
  | LoginChecks :: hs' => run_chain hs' b tok (errs ++ login_errors isEmail b)
  | AuthMiddleware :: hs' =>
      if auth_passes tok then run_chain hs' b tok errs else Answered AuthMiddleware
  | Register :: _ => of_outcome Register (register b errs)
  | Login :: _ => of_outcome Login (login b errs)
  | GetMe :: _ => of_outcome GetMe (getMe tok)
  end.

(** The router's walk: the first route whose method and path match runs;
    [next()] goes on to the following routes, and past the last one out of
    the router. *)
Fixpoint dispatch (rs : list route) (m path : string) (b : req_body) (tok : option string) : result :=
  match rs with
  | [] => Next
  | r :: rs' =>
      if method_matches (verb r) m && path_matches (route_path r) path then
        match run_chain (handlers r) b tok [] with
        | Next => dispatch rs' m path b tok
        | res => res
        end
      else dispatch rs' m path b tok
  end.

End Chain.
End AuthRouter.

(** ** server.js at start-up *)

Module Startup.

(** The shell's environment has one value per key; a parsed [.env] file
    may repeat a key, and then its last line wins. *)
Abbreviation env := (list (string * string)).

(** [process.env[k]] after [dotenv.config()]: the shell's value when the
    key is set there, even to the empty string (dotenv does not override),
    otherwise the [.env] file's. *)
Definition env_lookup (proc file : env) (k : string) : option string :=
  match list_find (fun kv => kv.1 = k) proc with
  | Some (_, kv) => Some kv.2
  | None => (fun ikv => ikv.2.2) <$> list_find (fun kv => kv.1 = k) (reverse file)
  end.

(** What the module's top level does, in order.  [connectDB()] is not
    awaited: [listen] follows it at once. *)
Inductive effect : Type :=
| LoadEnv                   (** [dotenv.config()] *)
| ConnectDB                 (** [connectDB()] *)
| Listen (p : Server.port). (** [app.listen(PORT, ...)] *)

Definition main (proc file : env) : list effect :=
  [LoadEnv; ConnectDB; Listen (Server.PORT (env_lookup proc file "PORT"))].

Definition listen_port (proc file : env) : option Server.port :=
  match last (main proc file) with Some (Listen p) => Some p | _ => None end.

End Startup.

(** * Properties *)

Module ApiFacts.
Import Server ServerFacts.

(** ** The auth router *)

Section Router.
Context `{Controllers}.
Import AuthRoutes AuthRouter.

(** A path that one route matches is matched by no other route. *)
Lemma route_path_lower p path :
  AuthRouter.path_matches p path = true ->
  Js.toLowerCase path = Js.toLowerCase p \/ Js.toLowerCase path = Js.toLowerCase p +:+ "/".
Proof. unfold AuthRouter.path_matches. rewrite orb_true_iff, !bool_decide_eq_true. done. Qed.

Ltac other_routes Hp :=
  apply route_path_lower in Hp as [Hp|Hp];
  unfold AuthRouter.path_matches; rewrite Hp; vm_compute; reflexivity.

Lemma register_path_only path :
  AuthRouter.path_matches "/register" path = true ->
  AuthRouter.path_matches "/login" path = false /\ AuthRouter.path_matches "/me" path = false.
Proof. intros Hp. split; other_routes Hp. Qed.

Lemma me_path_only path :
  AuthRouter.path_matches "/me" path = true ->
  AuthRouter.path_matches "/register" path = false /\ AuthRouter.path_matches "/login" path = false.
Proof. intros Hp. split; other_routes Hp. Qed.

(** [POST /register] runs the handlers of the register route. *)
Lemma dispatch_register path b tok :
  AuthRouter.path_matches "/register" path = true ->
  dispatch routes "POST" path b tok = run_chain [RegisterChecks; Register] b tok [].
Proof.
  intros Hp. destruct (register_path_only path Hp) as [Hl Hm].
  unfold routes. cbn [dispatch verb route_path handlers]. rewrite Hp, Hl, Hm.
  replace (method_matches "POST" "POST") with true by reflexivity. cbn [andb]. rewrite !andb_false_r.
  by destruct (run_chain [RegisterChecks; Register] b tok []).
Qed.

(** [GET] or [HEAD /me] runs the handlers of the me route. *)
Lemma dispatch_me m path b tok :
  method_matches "GET" m = true -> AuthRouter.path_matches "/me" path = true ->
  dispatch routes m path b tok = run_chain [AuthMiddleware; GetMe] b tok [].
Proof.
  intros Hm Hp. destruct (me_path_only path Hp) as [Hr Hl].
  unfold routes. cbn [dispatch verb route_path handlers]. rewrite Hp, Hr, Hl, Hm, !andb_false_r.
  cbn [andb]. by destruct (run_chain [AuthMiddleware; GetMe] b tok []).
Qed.

(** C13. A [POST] on [/register] (any case, with or without a trailing
    slash) reaches the [register] controller with exactly the errors of
    the five validator chains, and the router ends as the controller
    does: the validators never answer themselves. *)
Theorem register_route_runs_controller path b tok :
  AuthRouter.path_matches "/register" path = true ->
  dispatch routes "POST" path b tok = of_outcome Register (register b (register_errors isEmail b)).
Proof. intros Hp. rewrite dispatch_register by done. cbn [run_chain app]. done. Qed.

(** C15. [GET] or [HEAD] on [/me] runs [getMe] only when the [auth]
    middleware accepts the token; otherwise the middleware answers and
    [getMe] never runs. *)
Theorem me_route_requires_auth m path b tok :
  method_matches "GET" m = true -> AuthRouter.path_matches "/me" path = true ->
  dispatch routes m path b tok =
  if auth_passes tok then of_outcome GetMe (getMe tok) else Answered AuthMiddleware.
Proof.
  intros Hm Hp. rewrite dispatch_me by done. cbn [run_chain].
  by destruct (auth_passes tok).
Qed.


End Router.

(** ** Start-up *)

(** C35. The server listens on the shell's [PORT] when it is set there, and
    falls back to 5000 exactly when the shell sets it to the empty string
    (dotenv does not override it, and [""] is falsy) or the shell leaves
    it unset and [.env] does too or sets it empty. *)
Theorem startup_port_fallback proc file :
  Startup.listen_port proc file = Some (PortNumber 5000) <->
  Startup.env_lookup proc [] "PORT" = Some "" \/
  (Startup.env_lookup proc [] "PORT" = None /\
   (Startup.env_lookup [] file "PORT" = None \/ Startup.env_lookup [] file "PORT" = Some "")).
Proof.
  unfold Startup.listen_port, Startup.main, Startup.env_lookup. simpl.
  split; [intros Hp; injection Hp as Hp|intros Hp; f_equal];
    [apply PORT_fallback in Hp|apply PORT_fallback];
    destruct (list_find _ proc) as [[? [? ?]]|]; naive_solver.
Qed.

(** ** Instances *)

(** Controllers that answer a valid registration and refuse a missing
    token: the class is inhabited. *)
#[local] Instance sample_controllers : Controllers := {
  isEmail := fun s => bool_decide (s <> "");
  register := fun _ errs => match errs with [] => Respond | _ => Fail "validation" end;
  login := fun _ _ => Respond;
  auth_passes := fun tok => bool_decide (tok = Some "Bearer t");
  getMe := fun _ => Respond
}.

Definition sample_body : AuthRoutes.req_body :=
  [("name", "Ada"); ("email", "ada@x.ng"); ("password", "secret1"); ("phone", "080"); ("role", "buyer")].

Lemma register_route_runs_controller_witness :
  AuthRouter.dispatch AuthRouter.routes "POST" "/Register/" sample_body None =
  AuthRouter.Answered AuthRouter.Register.
Proof. rewrite register_route_runs_controller; reflexivity. Defined.

Lemma me_route_requires_auth_witness :
  AuthRouter.dispatch AuthRouter.routes "HEAD" "/me" [] None = AuthRouter.Answered AuthRouter.AuthMiddleware.
Proof. rewrite me_route_requires_auth; reflexivity. Defined.


End ApiFacts.
