(* ===== verification/Widgets.v ===== *)
(** * The dashboard's panels

    The admin dashboard ([src/admin/src/components/Dashboard.tsx]) shows
    five panels, each a component over a constant array and the
    [isDarkMode] flag: [StatsGrid], [RevenueChart], [RecentOrders],
    [TopProducts] and [ActivityFeed].  Each module here holds the array
    and the rendering of one panel: what every element shows and the
    classes chosen from the theme, the animations and fixed markup left
    out; [render_panel] adds the panel's card, heading and, for
    [RecentOrders], its buttons and column heads.  [RecentOrders] indexes
    its [statusConfig] by the order's status; a status with no entry makes
    [.bg] of [undefined] throw, so its rendering is an [option].
    [has_class] reads a [className] as its space-separated tokens. *)

From Stdlib Require Import QArith_base Sorted.
From stdpp Require Import pretty.
From S2P Require Import Prelude JsString Models AdminOrders.

(** [${isDarkMode ? dark : light}] *)
Definition themed (isDarkMode : bool) (dark light : string) : string :=
  if isDarkMode then dark else light.

(** A [className] read as the browser does: the tokens between spaces. *)
Definition has_class (c cls : string) : bool := bool_decide (c ∈ Js.split " "%char cls).

(** The card every panel sits in. *)
Definition card_class (isDarkMode : bool) : string :=
  themed isDarkMode "bg-gray-900 border-gray-800" "bg-white border-gray-200".

(** The panels' headings and emphasised text. *)
Definition heading_class (isDarkMode : bool) : string :=
  themed isDarkMode "text-white" "text-gray-900".

(** The card a panel sits in, with its heading and grey subheading. *)
Record panel_head : Type := mk_panel_head {
  panel_class : string; panel_title : string; panel_title_class : string; panel_subtitle : string
}.

Definition render_head (isDarkMode : bool) (layout title subtitle : string) : panel_head :=
  mk_panel_head (card_class isDarkMode +:+ " border rounded-2xl " +:+ layout)
    title ("text-xl font-bold " +:+ heading_class isDarkMode) subtitle.

(** ** RecentOrders *)

Module RecentOrders.

Record recent_order : Type := mk_recent_order {
  id : string; customer : string; amount : string; status : string; date : string; items : nat
}.

Definition recentOrders : list recent_order := [
  mk_recent_order "ORD-2024-001" "Adebayo Johnson" "₦15,230" "delivered" "2 hours ago" 5;
  mk_recent_order "ORD-2024-002" "Bisi Adekoya" "₦8,750" "processing" "4 hours ago" 3;
  mk_recent_order "ORD-2024-003" "Chukwu Okafor" "₦22,180" "out-for-delivery" "6 hours ago" 7;
  mk_recent_order "ORD-2024-004" "Folake Bello" "₦3,420" "pending" "8 hours ago" 2;
  mk_recent_order "ORD-2024-005" "Ibrahim Musa" "₦12,890" "delivered" "10 hours ago" 4
].

Record status_style : Type := mk_status_style { bg : string; text : string; label : string }.

(** [statusConfig[k]]: four keys, [undefined] for any other. *)
Definition statusConfig (k : string) : option status_style :=
  if decide (k = "delivered") then Some (mk_status_style "bg-green-500/20" "text-green-500" "DELIVERED")
  else if decide (k = "processing") then Some (mk_status_style "bg-blue-500/20" "text-blue-500" "PROCESSING")
  else if decide (k = "out-for-delivery") then
    Some (mk_status_style "bg-orange-500/20" "text-orange-500" "OUT FOR DELIVERY")
  else if decide (k = "pending") then Some (mk_status_style "bg-gray-500/20" "text-gray-500" "PENDING")
  else None.

(** What a row of the table shows. *)
Record row_view : Type := mk_row_view {
  row_class : string;
  row_id : string;
  row_initials : string;
  row_customer : string;
  row_items : string;
  row_amount : string;
  row_status_class : string;
  row_status_label : string;
  row_date : string;
  row_date_class : string
}.

(** One [<motion.tr>]: the three [statusConfig] lookups read the same
    entry. *)
Definition render_row (isDarkMode : bool) (o : recent_order) : option row_view :=
  match statusConfig (status o) with
  | None => None
  | Some cfg =>
      Some (mk_row_view
        ("border-b " +:+ themed isDarkMode "border-gray-800 hover:bg-gray-800/30"
                                           "border-gray-200 hover:bg-gray-50")
        (id o) (OrdersPage.initials (customer o)) (customer o)
        (pretty (items o) +:+ " items") (amount o)
        (bg cfg +:+ " " +:+ text cfg) (label cfg)
        (date o) (themed isDarkMode "text-gray-400" "text-gray-600"))
  end.

(** [recentOrders.map(...)]; [None] when a row throws. *)
Definition render (isDarkMode : bool) : option (list row_view) :=
  mapM (render_row isDarkMode) recentOrders.

Definition columns : list string := ["Order ID"; "Customer"; "Amount"; "Status"; "Date"; "Actions"].

(** The whole panel: heading, the Filter and Export buttons, the column
    heads and the rows. *)
Record panel_view : Type := mk_panel_view {
  head : panel_head;
  filter_class : string;
  export_class : string;
  head_row_class : string;
  heads : list (string * string);
  rows : list row_view
}.

Definition render_panel (isDarkMode : bool) : option panel_view :=
  match render isDarkMode with
  | None => None
  | Some rs =>
      Some (mk_panel_view
        (render_head isDarkMode "overflow-hidden" "Recent Orders" "Latest transactions from your customers")
        ("px-4 py-2 rounded-xl " +:+ themed isDarkMode "hover:bg-gray-800 text-gray-400" "hover:bg-gray-100 text-gray-600" +:+
         " transition-all flex items-center gap-2 border " +:+ themed isDarkMode "border-gray-800" "border-gray-200")
        "px-4 py-2 rounded-xl bg-orange-500 hover:bg-orange-600 text-white transition-all flex items-center gap-2 shadow-lg shadow-orange-500/30"
        ("border-b " +:+ themed isDarkMode "border-gray-800 bg-gray-800/30" "border-gray-200 bg-gray-50")
        (map (fun c => (c, "text-left p-4 " +:+ themed isDarkMode "text-gray-400" "text-gray-600" +:+
                            " font-semibold text-xs uppercase tracking-wider")) columns)
        rs)
  end.

End RecentOrders.

(** ** StatsGrid *)

Module StatsGrid.

Inductive stat_icon : Type := DollarSign | Users | ShoppingCart | TrendingUp.
Inductive arrow : Type := ArrowUp | ArrowDown.

Record stat : Type := mk_stat {
  title : string; value : string; change : string; trend : string; icon : stat_icon;
  color : string; bgColor : string; borderColor : string; shadowColor : string
}.

Definition stats : list stat := [
  mk_stat "Total Revenue" "₦12,475,320" "+23.5%" "up" DollarSign
    "text-emerald-500" "bg-emerald-500/10" "border-emerald-500/20" "shadow-emerald-500/20";
  mk_stat "Active Users" "54,239" "+12.2%" "up" Users
    "text-blue-500" "bg-blue-500/10" "border-blue-500/20" "shadow-blue-500/20";
  mk_stat "Total Orders" "12,847" "+18.4%" "up" ShoppingCart
    "text-orange-500" "bg-orange-500/10" "border-orange-500/20" "shadow-orange-500/20";
  mk_stat "Conversion Rate" "3.47%" "+8.1%" "up" TrendingUp
    "text-purple-500" "bg-purple-500/10" "border-purple-500/20" "shadow-purple-500/20"
].

Record stat_view : Type := mk_stat_view {
  stat_card_class : string;
  stat_overlay_class : string;
  stat_icon_box_class : string;
  stat_icon_of : stat_icon;
  stat_icon_class : string;
  stat_trend_class : string;
  stat_arrow : arrow;
  stat_change : string;
  stat_value : string;
  stat_value_class : string;
  stat_title : string;
  stat_title_class : string;
  stat_sparkles_class : string
}.

(** The badge's colour and arrow both test [stat.trend === 'up']. *)
Definition trend_class (t : string) : string :=
  if bool_decide (t = "up") then "bg-green-500/20 text-green-500" else "bg-red-500/20 text-red-500".

Definition trend_arrow (t : string) : arrow :=
  if bool_decide (t = "up") then ArrowUp else ArrowDown.

Definition render_stat (isDarkMode : bool) (s : stat) : stat_view :=
  mk_stat_view
    (card_class isDarkMode +:+ " border rounded-2xl p-6 relative overflow-hidden group cursor-pointer")
    ("absolute inset-0 bg-gradient-to-br " +:+ bgColor s +:+ " opacity-0 group-hover:opacity-100 transition-opacity duration-300")
    ("w-14 h-14 " +:+ bgColor s +:+ " " +:+ borderColor s +:+ " border rounded-2xl flex items-center justify-center shadow-lg " +:+ shadowColor s +:+ " group-hover:scale-110 transition-transform duration-300")
    (icon s) ("w-7 h-7 " +:+ color s)
    (trend_class (trend s)) (trend_arrow (trend s)) (change s)
    (value s) ("text-3xl font-bold " +:+ heading_class isDarkMode +:+ " mb-1")
    (title s) (themed isDarkMode "text-gray-400" "text-gray-600" +:+ " text-sm font-medium")
    ("absolute -bottom-2 -right-2 w-20 h-20 " +:+ color s +:+ " opacity-5 group-hover:opacity-10 transition-opacity").

Definition render (isDarkMode : bool) : list stat_view := map (render_stat isDarkMode) stats.

End StatsGrid.

(** ** TopProducts *)

Module TopProducts.

Record top_product : Type := mk_top_product {
  name : string; sales : nat; revenue : string; trend : string; rating : Q
}.

Definition topProducts : list top_product := [
  mk_top_product "iPhone 14 Pro Max" 234 "₦2,340,000" "+12%" (48 # 10);
  mk_top_product "Samsung Galaxy S23" 189 "₦1,890,000" "+8%" (46 # 10);
  mk_top_product "MacBook Pro M2" 156 "₦4,680,000" "+15%" (49 # 10);
  mk_top_product "AirPods Pro" 312 "₦936,000" "+20%" (47 # 10);
  mk_top_product "iPad Air" 145 "₦2,175,000" "+5%" (45 # 10)
].

Record product_view : Type := mk_product_view {
  product_class : string;
  product_name : string;
  product_name_class : string;
  product_trend : string;
  product_sales : string;
  product_rating : Q;
  product_revenue : string;
  product_revenue_class : string
}.

Definition render_product (isDarkMode : bool) (p : top_product) : product_view :=
  mk_product_view
    ("p-4 rounded-xl " +:+ themed isDarkMode "bg-gray-800/50 hover:bg-gray-800" "bg-gray-50 hover:bg-gray-100" +:+ " transition-all cursor-pointer group")
    (name p) ("font-semibold " +:+ heading_class isDarkMode +:+ " group-hover:text-orange-500 transition-colors")
    (trend p) (pretty (sales p) +:+ " sales") (rating p)
    (revenue p) ("font-bold " +:+ heading_class isDarkMode).

Definition render (isDarkMode : bool) : list product_view :=
  map (render_product isDarkMode) topProducts.

Record panel_view : Type := mk_panel_view { head : panel_head; products : list product_view }.

Definition render_panel (isDarkMode : bool) : panel_view :=
  mk_panel_view (render_head isDarkMode "p-6" "Top Products" "Best selling items") (render isDarkMode).

End TopProducts.

(** ** ActivityFeed *)

Module ActivityFeed.

Inductive activity_icon : Type := ShoppingCart | User | Package | CreditCard.

Record activity : Type := mk_activity {
  type : string; user : string; action : string; time : string;
  icon : activity_icon; color : string; bg : string
}.

Definition activities : list activity := [
  mk_activity "order" "Adebayo J." "placed a new order" "2 min ago" ShoppingCart "text-blue-500" "bg-blue-500/10";
  mk_activity "user" "Bisi A." "registered as seller" "15 min ago" User "text-green-500" "bg-green-500/10";
  mk_activity "product" "Chukwu O." "added new product" "1 hour ago" Package "text-purple-500" "bg-purple-500/10";
  mk_activity "payment" "Folake B." "completed payment" "2 hours ago" CreditCard "text-orange-500" "bg-orange-500/10";
  mk_activity "order" "Ibrahim M." "order delivered" "3 hours ago" ShoppingCart "text-emerald-500" "bg-emerald-500/10"
].

Record activity_view : Type := mk_activity_view {
  activity_key : nat;
  activity_icon_box : string;
  activity_icon_of : activity_icon;
  activity_icon_class : string;
  activity_text_class : string;
  activity_user : string;
  activity_action : string;
  activity_time : string
}.

(** [key={index}]: the element's position. *)
Definition render_activity (isDarkMode : bool) (index : nat) (a : activity) : activity_view :=
  mk_activity_view index
    ("w-10 h-10 " +:+ bg a +:+ " rounded-xl flex items-center justify-center flex-shrink-0 group-hover:scale-110 transition-transform")
    (icon a) ("w-5 h-5 " +:+ color a)
    (heading_class isDarkMode +:+ " text-sm") (user a) (action a) (time a).

Definition render (isDarkMode : bool) : list activity_view :=
  imap (render_activity isDarkMode) activities.

Record panel_view : Type := mk_panel_view { head : panel_head; items : list activity_view }.

Definition render_panel (isDarkMode : bool) : panel_view :=
  mk_panel_view (render_head isDarkMode "p-6" "Activity Feed" "Recent platform activity") (render isDarkMode).

End ActivityFeed.

(** ** RevenueChart *)

Module RevenueChart.

Record point : Type := mk_point { name : string; revenue : N; orders : N }.

Definition data : list point := [
  mk_point "Jan" 4000 240; mk_point "Feb" 3000 198; mk_point "Mar" 5000 320;
  mk_point "Apr" 4500 278; mk_point "May" 6000 389; mk_point "Jun" 5500 349;
  mk_point "Jul" 7000 430
].

(** What [AreaChart] is given: the [dataKey]s select the month for the
    x axis and the revenue for the area; [orders] is never plotted. *)
Record chart_view : Type := mk_chart_view {
  chart_card_class : string;
  chart_title : string;
  chart_title_class : string;
  chart_subtitle : string;
  chart_range_class : string;
  chart_range_label : string;
  chart_grid_stroke : string;
  chart_axis_stroke : string;
  chart_tooltip_bg : string;
  chart_tooltip_border : string;
  chart_x : list string;
  chart_area : list N;
  chart_area_stroke : string
}.

Definition render (isDarkMode : bool) : chart_view :=
  mk_chart_view
    (card_class isDarkMode +:+ " border rounded-2xl p-6")
    "Revenue Overview" ("text-xl font-bold " +:+ heading_class isDarkMode +:+ " flex items-center gap-2")
    "Monthly revenue and order trends"
    ("px-4 py-2 rounded-xl " +:+ themed isDarkMode "bg-gray-800 hover:bg-gray-700" "bg-gray-100 hover:bg-gray-200" +:+
     " transition-all flex items-center gap-2 border " +:+ themed isDarkMode "border-gray-700" "border-gray-200")
    "Last 7 months"
    (themed isDarkMode "#2a2a2a" "#e5e5e5") (themed isDarkMode "#666" "#999")
    (themed isDarkMode "#1f1f1f" "#fff") ("1px solid " +:+ themed isDarkMode "#2a2a2a" "#e5e5e5")
    (map name data) (map revenue data) "#F88F3A".

End RevenueChart.

(** * Properties *)

Module WidgetsFacts.

(** ** RecentOrders *)

(** The table renders exactly when every order's status has a
    [statusConfig] entry. *)
Theorem recent_rows_render_iff d l :
  is_Some (mapM (RecentOrders.render_row d) l) <->
  Forall (fun o => is_Some (RecentOrders.statusConfig (RecentOrders.status o))) l.
Proof.
  rewrite mapM_is_Some. apply Forall_iff. intros o. unfold compose, RecentOrders.render_row.
  destruct (RecentOrders.statusConfig _); split; intros [? ?]; by eauto.
Qed.

(** The panel as written renders, in both themes. *)
Lemma recent_render_total d : is_Some (RecentOrders.render d).
Proof.
  apply mapM_is_Some_2. apply Forall_forall. intros o Ho.
  repeat (apply elem_of_cons in Ho as [->|Ho]); [by eexists..|by apply not_elem_of_nil in Ho].
Qed.

(** Of the Order schema's five statuses only [pending] and [delivered]
    have an entry: a row holding an order that is [assigned], [picked] or
    [cancelled] would make the dashboard throw. *)
Theorem recent_statusConfig_schema st :
  is_Some (RecentOrders.statusConfig (Order.string_of_status st)) <->
  st = Order.pending \/ st = Order.delivered.
Proof.
  destruct st; vm_compute; split; try (intros [? ?]; discriminate); intuition (try discriminate; eauto).
Qed.

(** ** StatsGrid *)

(** The badge is green exactly when it carries the up arrow. *)
Theorem stat_badge_consistent d s :
  StatsGrid.stat_trend_class (StatsGrid.render_stat d s) = "bg-green-500/20 text-green-500" <->
  StatsGrid.stat_arrow (StatsGrid.render_stat d s) = StatsGrid.ArrowUp.
Proof.
  simpl. unfold StatsGrid.trend_class, StatsGrid.trend_arrow.
  case_bool_decide; split; (done || discriminate).
Qed.

(** ** Keys *)

(** The activity feed keys its items by position: the keys are
    [0, ..., n-1], hence distinct. *)
Theorem activity_keys d :
  ActivityFeed.activity_key <$> ActivityFeed.render d = seq 0 (length ActivityFeed.activities).
Proof.
  unfold ActivityFeed.render. rewrite fmap_imap.
  rewrite (imap_ext _ (fun j _ => id j)); [|done].
  by rewrite imap_seq_0, list_fmap_id.
Qed.

(** Every other panel keys its items by a field; the fields are distinct
    in the arrays as written, so React sees no duplicate key. *)
Lemma panel_keys_unique :
  NoDup (map RecentOrders.id RecentOrders.recentOrders) /\
  NoDup (map StatsGrid.title StatsGrid.stats) /\
  NoDup (map TopProducts.name TopProducts.topProducts).
Proof. split_and!; apply (bool_decide_unpack _); vm_compute; reflexivity. Qed.

(** ** TopProducts and RevenueChart *)

(** "Best selling items" are not listed by sales: "AirPods Pro", with the
    most sales, comes fourth. *)
Lemma topProducts_not_by_sales :
  ~ StronglySorted ge (map TopProducts.sales TopProducts.topProducts).
Proof.
  simpl. intros H. apply StronglySorted_inv in H as [_ Hf].
  apply Forall_inv_tail, Forall_inv_tail, Forall_inv in Hf. lia.
Qed.

(** The chart plots the revenue of each month of [data], in order, and its
    range label counts them. *)
Lemma revenue_chart_plots d :
  RevenueChart.chart_area (RevenueChart.render d) = map RevenueChart.revenue RevenueChart.data /\
  RevenueChart.chart_range_label (RevenueChart.render d) =
    "Last " +:+ pretty (length RevenueChart.data) +:+ " months".
Proof. split; reflexivity. Qed.

End WidgetsFacts.
