(* ===== verification/Dashboard.v ===== *)
(** * The dashboard page: sidebar, header and the composed view

    [src/admin/src/components/Dashboard.tsx] keeps two pieces of React
    state, [isSidebarOpen] and [isDarkMode], both initially [true], and
    passes them down: to [Sidebar] ([Sidebar.tsx]), which renders only
    when open; to [Header] ([Header.tsx]), which receives the setters and
    keeps a search query of its own; and [isDarkMode] to the five panels
    of [Widgets].  [Sidebar] renders a notification badge with
    [{item.notifications && ...}], whose value, for a count of 0, is the
    number 0 that React prints.

    [Sidebar] and [Header] hold the two components, [Dashboard] the page's
    state, the events the header's controls raise, and the composed view;
    rendering is an [option] because [RecentOrders] may throw. *)

From stdpp Require Import pretty.
From S2P Require Import Prelude Widgets.

(** ** Sidebar *)

Module Sidebar.

Inductive sidebar_icon : Type :=
  BarChart3 | ShoppingCart | Users | Package | Truck | CreditCard | TrendingUp | Settings.

(** [active] and [notifications] are absent from most items: [active] is
    then [undefined], which is falsy. *)
Record sidebar_item : Type := mk_sidebar_item {
  icon : sidebar_icon; label : string; active : bool; notifications : option nat
}.

Definition sidebarItems : list sidebar_item := [
  mk_sidebar_item BarChart3 "Dashboard" true None;
  mk_sidebar_item ShoppingCart "Orders" false (Some 12);
  mk_sidebar_item Users "Customers" false (Some 3);
  mk_sidebar_item Package "Products" false None;
  mk_sidebar_item Truck "Riders" false (Some 5);
  mk_sidebar_item CreditCard "Payments" false None;
  mk_sidebar_item TrendingUp "Analytics" false None;
  mk_sidebar_item Settings "Settings" false None
].

(** What [{x && <span>...</span>}] leaves in the tree. *)
Inductive child : Type :=
| Nothing                  (** [undefined], [false]: nothing is drawn *)
| Text (s : string)        (** a number other than a badge: React prints it *)
| CountBadge (n : nat).    (** the orange badge *)

(** [{item.notifications && (<span>{item.notifications}</span>)}] *)
Definition notification_child (n : option nat) : child :=
  match n with
  | None => Nothing
  | Some 0 => Text "0"
  | Some n => CountBadge n
  end.

Record item_view : Type := mk_item_view {
  view_icon : sidebar_icon;
  view_label : string;
  view_class : string;
  view_highlight : bool;     (** the [activeTab] layer *)
  view_badge : child
}.

Definition item_class (active isDarkMode : bool) : string :=
  "w-full flex items-center gap-3 px-4 py-3.5 rounded-xl mb-2 transition-all group relative " +:+
  (if active
   then "bg-gradient-to-r from-orange-500/20 to-orange-600/20 text-orange-500 border border-orange-500/30 shadow-lg shadow-orange-500/10"
   else themed isDarkMode "text-gray-400 hover:text-white hover:bg-gray-800/50"
                          "text-gray-600 hover:text-gray-900 hover:bg-gray-100").

Definition render_item (isDarkMode : bool) (it : sidebar_item) : item_view :=
  mk_item_view (icon it) (label it) (item_class (active it) isDarkMode) (active it)
    (notification_child (notifications it)).

(** The brand block above the navigation and the signed-in user below it:
    fixed text, whose classes do not follow the theme. *)
Record sidebar_view : Type := mk_sidebar_view {
  aside_class : string;
  brand_title : string;
  brand_title_class : string;
  brand_subtitle : string;
  nav : list item_view;
  footer_class : string;
  user_initials : string;
  user_name : string;
  user_name_class : string;
  user_email : string
}.

(** [{isOpen && (<motion.aside>...)}] *)
Definition render (isOpen isDarkMode : bool) : option sidebar_view :=
  if isOpen then
    Some (mk_sidebar_view
      ("w-72 " +:+ card_class isDarkMode +:+ " border-r flex flex-col fixed lg:sticky top-0 h-screen z-40")
      "SmartLink" "font-bold text-xl text-white" "Admin Portal"
      (map (render_item isDarkMode) sidebarItems)
      ("p-4 border-t " +:+ themed isDarkMode "border-gray-800" "border-gray-200")
      "AD" "Admin User" "text-white font-medium truncate" "admin@smartlink.ng")
  else None.

End Sidebar.

(** ** Header *)

Module Header.

Inductive theme_icon : Type := Sun | Moon.

Record header_view : Type := mk_header_view {
  header_class : string;
  menu_class : string;
  search_icon_class : string;
  search_placeholder : string;
  search_value : string;
  search_class : string;
  theme_button_icon : theme_icon;
  theme_button_class : string;
  bell_class : string;
  divider_class : string;
  avatar_initials : string
}.

(** The header's own [useState('')] is [searchQuery]. *)
Definition render (isDarkMode : bool) (searchQuery : string) : header_view :=
  mk_header_view
    (themed isDarkMode "bg-gray-900/80 border-gray-800" "bg-white/80 border-gray-200" +:+ " border-b backdrop-blur-xl sticky top-0 z-30")
    ("p-2.5 rounded-xl " +:+ themed isDarkMode "hover:bg-gray-800 text-gray-400" "hover:bg-gray-100 text-gray-600" +:+ " transition-all hover:scale-105")
    ("absolute left-4 top-1/2 transform -translate-y-1/2 w-5 h-5 " +:+ themed isDarkMode "text-gray-400" "text-gray-400")
    "Search orders, customers, products..."
    searchQuery
    ("pl-12 pr-4 py-3 w-full rounded-xl " +:+ themed isDarkMode "bg-gray-800 text-white border-gray-700 focus:border-orange-500" "bg-gray-100 text-gray-900 border-gray-200 focus:border-orange-500" +:+ " border focus:outline-none focus:ring-2 focus:ring-orange-500/20 transition-all")
    (if isDarkMode then Sun else Moon)
    ("p-2.5 rounded-xl " +:+ themed isDarkMode "hover:bg-gray-800 text-gray-400 hover:text-orange-500" "hover:bg-gray-100 text-gray-600 hover:text-orange-500" +:+ " transition-all")
    ("relative p-2.5 rounded-xl " +:+ themed isDarkMode "hover:bg-gray-800 text-gray-400" "hover:bg-gray-100 text-gray-600" +:+ " transition-all")
    ("h-8 w-px " +:+ themed isDarkMode "bg-gray-800" "bg-gray-200")
    "AD".

End Header.

(** ** The page *)

Module Dashboard.

(** The page's state and the header's, which lives as long as the page. *)
Record state : Type := mk_state {
  isSidebarOpen : bool;
  isDarkMode : bool;
  headerSearch : string
}.

Definition initial : state := mk_state true true "".

(** The header's controls. *)
Inductive event : Type :=
| MenuClick                (** [setIsSidebarOpen(!isSidebarOpen)] *)
| ThemeClick               (** [setIsDarkMode(!isDarkMode)] *)
| SearchInput (v : string). (** [setSearchQuery(e.target.value)] *)

Definition step (st : state) (ev : event) : state :=
  match ev with
  | MenuClick => mk_state (negb (isSidebarOpen st)) (isDarkMode st) (headerSearch st)
  | ThemeClick => mk_state (isSidebarOpen st) (negb (isDarkMode st)) (headerSearch st)
  | SearchInput v => mk_state (isSidebarOpen st) (isDarkMode st) v
  end.

Definition run (st : state) (evs : list event) : state := fold_left step evs st.

Record view : Type := mk_view {
  root_class : string;
  sidebar : option Sidebar.sidebar_view;
  header : Header.header_view;
  title : string;
  title_class : string;
  subtitle : string;
  subtitle_class : string;
  stats : list StatsGrid.stat_view;
  revenue : RevenueChart.chart_view;
  recent : RecentOrders.panel_view;
  top : TopProducts.panel_view;
  activity : ActivityFeed.panel_view
}.

(** The page renders when every child does; [RecentOrders] is the one
    that can throw. *)
Definition render (st : state) : option view :=
  let d := isDarkMode st in
  match RecentOrders.render_panel d with
  | None => None
  | Some recent =>
      Some (mk_view
        ("min-h-screen " +:+ themed d "bg-black" "bg-gray-50" +:+ " flex")
        (Sidebar.render (isSidebarOpen st) d)
        (Header.render d (headerSearch st))
        "Welcome back, Admin 👋" "text-3xl font-bold text-white mb-2"
        "Here's what's happening across SmartLink Nigeria today."
        (themed d "text-gray-400" "text-gray-600")
        (StatsGrid.render d) (RevenueChart.render d) recent
        (TopProducts.render_panel d) (ActivityFeed.render_panel d))
  end.

End Dashboard.

(** * Properties *)

Module DashboardFacts.
Import Dashboard.

(** ** Sidebar *)

(** A badge is drawn exactly for a positive count; a missing count draws
    nothing, and a count of 0 prints a stray ["0"]. *)
Theorem notification_child_spec c :
  (forall n, Sidebar.notification_child c = Sidebar.CountBadge n <-> c = Some n /\ n <> 0) /\
  (Sidebar.notification_child c = Sidebar.Nothing <-> c = None) /\
  (Sidebar.notification_child c = Sidebar.Text "0" <-> c = Some 0).
Proof.
  destruct c as [[|n]|]; simpl; split_and!; try intros m; split; intros H;
    simplify_eq; try done; destruct H; simplify_eq; done.
Qed.

(** Whatever page renders it, the sidebar highlights "Dashboard" and
    nothing else: [active] is fixed in [sidebarItems]. *)
Theorem sidebar_highlights_dashboard isOpen d sv :
  Sidebar.render isOpen d = Some sv ->
  map Sidebar.view_label (List.filter Sidebar.view_highlight (Sidebar.nav sv)) = ["Dashboard"].
Proof. unfold Sidebar.render. destruct isOpen; intros; simplify_eq. reflexivity. Qed.

(** ** The page *)

(** The page renders in every state. *)
Theorem render_total st : is_Some (render st).
Proof.
  unfold render, RecentOrders.render_panel. destruct (WidgetsFacts.recent_render_total (isDarkMode st)) as [rows ->].
  by eexists.
Qed.

(** The header's search box changes its own value and nothing else of the
    page: no panel reads it. *)
Theorem header_search_inert st v :
  render (step st (SearchInput v)) =
  (fun w => mk_view (root_class w) (sidebar w) (Header.render (isDarkMode st) v)
              (title w) (title_class w) (subtitle w) (subtitle_class w)
              (stats w) (revenue w) (recent w) (top w) (activity w)) <$> render st.
Proof. unfold render, RecentOrders.render_panel. simpl. by destruct (RecentOrders.render (isDarkMode st)). Qed.

(** The menu button shows the sidebar exactly when it was hidden. *)
Theorem menu_click_toggles_sidebar st w :
  render (step st MenuClick) = Some w -> is_Some (sidebar w) <-> isSidebarOpen st = false.
Proof.
  unfold render, RecentOrders.render_panel. destruct (WidgetsFacts.recent_render_total (isDarkMode st)) as [rows Hr].
  cbn [step isDarkMode isSidebarOpen]. rewrite Hr. intros Hw. injection Hw as <-.
  cbn [sidebar]. unfold Sidebar.render.
  destruct (isSidebarOpen st); simpl; split; intros Hs;
    first [done | by destruct Hs | by eexists].
Qed.

(** The theme button flips every panel between its dark and light classes
    together: after a click the page is the page of the other theme. *)
Theorem theme_click_renders_other_theme st :
  render (step st ThemeClick) = render (mk_state (isSidebarOpen st) (negb (isDarkMode st)) (headerSearch st)).
Proof. reflexivity. Qed.

(** In the light theme the dashboard's panel headings are dark text
    ([text-gray-900]): its panels switch their text with the theme. *)
Lemma light_panel_titles st w :
  isDarkMode st = false -> render st = Some w ->
  Forall (fun h => has_class "text-gray-900" (panel_title_class h) = true)
    [RecentOrders.head (recent w); TopProducts.head (top w); ActivityFeed.head (activity w)].
Proof.
  intros Hd. unfold render, RecentOrders.render_panel. rewrite Hd.
  destruct (WidgetsFacts.recent_render_total false) as [rows ->]. intros Hw; simplify_eq.
  vm_compute. repeat constructor.
Qed.

(** ** Instances *)

Lemma sidebar_highlights_dashboard_witness :
  exists sv, Sidebar.render true false = Some sv /\
    map Sidebar.view_label (List.filter Sidebar.view_highlight (Sidebar.nav sv)) = ["Dashboard"].
Proof. eexists. split; [reflexivity|]. eapply (sidebar_highlights_dashboard true false). reflexivity. Defined.

Lemma menu_click_toggles_sidebar_witness :
  exists w, render (step initial MenuClick) = Some w /\
    (is_Some (sidebar w) <-> isSidebarOpen initial = false).
Proof. eexists. split; [reflexivity|]. eapply (menu_click_toggles_sidebar initial). reflexivity. Defined.

End DashboardFacts.
