(* ===== verification/Pages.v ===== *)
(** * The admin app's routes: the orders screen, the 404 page and the loading fallback

    The admin front end is a Next.js App Router application whose
    [src/admin/src/app] directory, as the repository holds it, has three
    files: [orders/page.tsx], served at ["/orders"]; [not-found.tsx],
    which the router renders for every path without a page; and
    [loading.tsx], the fallback the router shows while a route's segment
    loads.  The root [layout.tsx] that Next.js requires, and the page at
    ["/"] that the 404 page links to, are not in the repository: the
    class [Router.OtherPages] gives the paths of the app's other pages.

    [NotFound] and [Loading] hold the two fixed pages.  [OrdersScreen]
    composes [orders/page.tsx] with the [Sidebar] and [Header] it mounts:
    the page's four [useState] hooks ([OrdersPage.state]) together with
    the [Header]'s own [searchQuery].  [Router] resolves a path to a
    route the way the file layout defines, and [Nav] is the browser
    session: following a link shows the fallback, then the route's page. *)

From Stdlib Require Import QArith_base.
From S2P Require Import Prelude JsString AdminOrders Widgets Dashboard.

(** ** not-found.tsx *)

Module NotFound.

Inductive link_icon : Type := Home | Search.

(** [<Link href=...><motion.button>icon label</motion.button></Link>] *)
Record link : Type := mk_link {
  href : string; link_icon_of : link_icon; link_label : string; link_class : string
}.

Definition links : list link := [
  mk_link "/" Home "Back to Dashboard"
    "px-6 py-3 bg-gradient-to-r from-orange-500 to-orange-600 text-white rounded-xl font-semibold flex items-center gap-2 shadow-lg shadow-orange-500/30 hover:shadow-orange-500/50 transition-all";
  mk_link "/" Search "Search"
    "px-6 py-3 bg-gray-800 hover:bg-gray-700 text-white rounded-xl font-semibold flex items-center gap-2 border border-gray-700 transition-all"
].

Record view : Type := mk_view {
  root_class : string;
  code : string;
  title : string;
  messages : list string;
  actions : list link
}.

(** [NotFound()]: the page takes no props and keeps no state. *)
Definition render : view :=
  mk_view "min-h-screen bg-black flex items-center justify-center p-6" "404" "Page Not Found"
    ["Oops! The page you're looking for doesn't exist."; "It might have been moved or deleted."]
    links.

End NotFound.

(** ** loading.tsx *)

Module Loading.

(** A pulsing dot: [transition={{ duration: 1.5, repeat: Infinity, delay }}]. *)
Record dot : Type := mk_dot { dot_duration : Q; dot_delay : Q }.

Record view : Type := mk_view {
  ring_duration : Q;      (** the outer ring's full turn *)
  pulse_duration : Q;     (** the inner circle's pulse *)
  title : string;
  dots : list dot
}.

Definition render : view :=
  mk_view 2 (3 # 2) "SmartLink Admin" [mk_dot (3 # 2) 0; mk_dot (3 # 2) (2 # 10); mk_dot (3 # 2) (4 # 10)].

End Loading.

(** ** The routes of the app directory *)

Module Router.

Inductive route : Type := OrdersRoute | OtherPage (p : string) | NotFoundRoute.

#[global] Instance route_eq_dec : EqDecision route.
Proof. solve_decision. Defined.

(** The pages of the app that the repository does not hold, by their
    paths: the snapshot of [app/] has no root [layout.tsx] and no
    [page.tsx] beside [orders/], while [not-found.tsx] links to ["/"] as
    "Back to Dashboard". *)
Class OtherPages : Type := other_pages : list string.

(** [orders/page.tsx] at ["/orders"], a page of the rest of the app, or,
    for a path with no page, [not-found.tsx]. *)
Definition resolve `{OtherPages} (path : string) : route :=
  if String.eqb path "/orders" then OrdersRoute
  else if bool_decide (path ∈ other_pages) then OtherPage path
  else NotFoundRoute.

End Router.

(** ** orders/page.tsx with the Sidebar and Header it mounts *)

Module OrdersScreen.

(** The page's hooks and the Header's own [searchQuery], which lives as
    long as the page. *)
Record state : Type := mk_state {
  page : OrdersPage.state;
  headerSearch : string
}.

Definition initial : state := mk_state OrdersPage.initial_state "".

Inductive event : Type :=
| PageEvent (e : OrdersPage.event)  (** the table's inputs and the setters passed to [Header] *)
| HeaderSearchInput (v : string).   (** the Header's [setSearchQuery(e.target.value)] *)

Definition step (st : state) (ev : event) : state :=
  match ev with
  | PageEvent e => mk_state (OrdersPage.handle (page st) e) (headerSearch st)
  | HeaderSearchInput v => mk_state (page st) v
  end.

Definition run (st : state) (evs : list event) : state := fold_left step evs st.

(** The search input, the status select and the two buttons above the table. *)
Record toolbar_view : Type := mk_toolbar_view {
  search_placeholder : string;
  search_value : string;
  search_class : string;
  select_value : string;
  select_class : string;
  select_options : list string;
  filter_class : string;
  export_class : string
}.

Definition input_class (d : bool) : string :=
  themed d "bg-gray-800 text-white border-gray-700" "bg-gray-100 text-gray-900 border-gray-200" +:+
  " border focus:outline-none focus:ring-2 focus:ring-orange-500/50".

Definition render_toolbar (p : OrdersPage.state) : toolbar_view :=
  let d := OrdersPage.isDarkMode p in
  mk_toolbar_view "Search orders..." (OrdersPage.searchQuery p)
    ("pl-10 pr-4 py-2.5 w-full rounded-xl " +:+ input_class d)
    (OrdersPage.selectedStatus p) ("px-4 py-2.5 rounded-xl " +:+ input_class d)
    OrdersPage.status_options
    ("px-4 py-2.5 rounded-xl " +:+ themed d "hover:bg-gray-800 text-gray-400" "hover:bg-gray-100 text-gray-600" +:+
     " transition-all flex items-center gap-2 border " +:+ themed d "border-gray-800" "border-gray-200")
    "px-4 py-2.5 rounded-xl bg-orange-500 hover:bg-orange-600 text-white transition-all flex items-center gap-2 shadow-lg shadow-orange-500/30".

(** The table's column heads. *)
Definition columns : list string :=
  ["Order ID"; "Customer"; "Amount"; "Status"; "Payment"; "Date"; "Actions"].

Record view : Type := mk_view {
  root_class : string;
  sidebar : option Sidebar.sidebar_view;
  header : Header.header_view;
  title : string;
  title_class : string;
  subtitle : string;
  subtitle_class : string;
  cards : list OrdersPage.card_view;
  table_class : string;
  toolbar : toolbar_view;
  head_class : string;
  heads : list (string * string);
  rows : list OrdersPage.row_view
}.

(** [OrdersPage()]: [None] when a row's [statusConfig] lookup throws. *)
Definition render (st : state) : option view :=
  let p := page st in
  let d := OrdersPage.isDarkMode p in
  match OrdersPage.render_rows p with
  | None => None
  | Some rs =>
      Some (mk_view
        ("min-h-screen " +:+ themed d "bg-black" "bg-gray-50" +:+ " flex")
        (Sidebar.render (OrdersPage.isSidebarOpen p) d)
        (Header.render d (headerSearch st))
        "Orders Management" "text-3xl font-bold text-white mb-2"
        "Manage and track all customer orders" (themed d "text-gray-400" "text-gray-600")
        (OrdersPage.render_cards p)
        (card_class d +:+ " border rounded-2xl overflow-hidden")
        (render_toolbar p)
        ("border-b " +:+ themed d "border-gray-800 bg-gray-800/30" "border-gray-200 bg-gray-50")
        (map (fun c => (c, "text-left p-4 " +:+ themed d "text-gray-400" "text-gray-600" +:+ " font-semibold text-xs uppercase")) columns)
        rs)
  end.

End OrdersScreen.

(** ** The browser session *)

Module Nav.

(** While a route's segment loads the router shows [loading.tsx]. *)
Inductive phase : Type := Fallback | Shown.

Record state : Type := mk_state {
  url : string;
  phase_of : phase;
  orders_state : OrdersScreen.state
}.

Definition initial (path : string) : state := mk_state path Fallback OrdersScreen.initial.

Section Session.
Context `{Router.OtherPages}.

Inductive event : Type :=
| Navigate (href : string)        (** a [<Link href>] is followed *)
| Settle                          (** the segment has loaded *)
| OnOrders (e : OrdersScreen.event).

(** A page is remounted, its state new, when the route changes; an event
    of the orders screen reaches it only while it is shown. *)
Definition step (st : state) (ev : event) : state :=
  match ev with
  | Navigate h =>
      mk_state h Fallback
        (if decide (Router.resolve h = Router.resolve (url st)) then orders_state st
         else OrdersScreen.initial)
  | Settle => mk_state (url st) Shown (orders_state st)
  | OnOrders e =>
      match phase_of st, Router.resolve (url st) with
      | Shown, Router.OrdersRoute => mk_state (url st) Shown (OrdersScreen.step (orders_state st) e)
      | _, _ => st
      end
  end.

Definition run (st : state) (evs : list event) : state := fold_left step evs st.

Inductive screen : Type :=
| LoadingScreen (v : Loading.view)
| OrdersPageScreen (v : option OrdersScreen.view)
| NotFoundScreen (v : NotFound.view)
| OtherPageScreen (p : string).  (** a page that is not in the repository *)

Definition screen_of (st : state) : screen :=
  match phase_of st with
  | Fallback => LoadingScreen Loading.render
  | Shown =>
      match Router.resolve (url st) with
      | Router.OrdersRoute => OrdersPageScreen (OrdersScreen.render (orders_state st))
      | Router.OtherPage p => OtherPageScreen p
      | Router.NotFoundRoute => NotFoundScreen NotFound.render
      end
  end.

(** Following a link to the end of its loading. *)
Definition follow (st : state) (l : NotFound.link) : state := run st [Navigate (NotFound.href l); Settle].

End Session.
End Nav.

(** * Properties *)

Module PagesFacts.

(** ** Routing *)

Section Routing.
Context `{Router.OtherPages}.

Lemma resolve_orders p : Router.resolve p = Router.OrdersRoute <-> p = "/orders".
Proof.
  unfold Router.resolve. destruct (String.eqb_spec p "/orders"); [done|].
  case_bool_decide; naive_solver.
Qed.


(** Following a link shows the loading fallback until the segment loads,
    then the page of the link's route; the orders page keeps its state
    only when the route does not change. *)
Theorem navigate_settles st h :
  Nav.screen_of (Nav.step st (Nav.Navigate h)) = Nav.LoadingScreen Loading.render /\
  Nav.screen_of (Nav.run st [Nav.Navigate h; Nav.Settle]) =
    match Router.resolve h with
    | Router.OrdersRoute =>
        Nav.OrdersPageScreen (OrdersScreen.render
          (if decide (Router.resolve (Nav.url st) = Router.OrdersRoute) then Nav.orders_state st
           else OrdersScreen.initial))
    | Router.OtherPage p => Nav.OtherPageScreen p
    | Router.NotFoundRoute => Nav.NotFoundScreen NotFound.render
    end.
Proof.
  split; [reflexivity|]. unfold Nav.run, Nav.screen_of. simpl.
  destruct (Router.resolve h) eqn:E, (Router.resolve (Nav.url st)); try reflexivity;
    by rewrite ?decide_False.
Qed.


End Routing.

(** ** The loading fallback *)

(** The [i]-th dot starts [i * 0.2] s into the others' 1.5 s pulse, so the
    three light up in turn within one cycle. *)
Lemma loading_dots_staggered i d :
  Loading.dots Loading.render !! i = Some d ->
  (Loading.dot_delay d == inject_Z (Z.of_nat i) * (1 # 5))%Q /\ (Loading.dot_delay d < Loading.dot_duration d)%Q.
Proof.
  destruct i as [|[|[|i]]]; simpl; intros Hd; simplify_eq; split; reflexivity.
Qed.

(** ** The orders screen *)

Section OrdersScreenFacts.
Import OrdersScreen.

(** The table shows the rows of the page's own filter: the [Header]'s
    query plays no part in them. *)
Lemma rows_from_table_search st :
  rows <$> render st = OrdersPage.render_rows (page st).
Proof. unfold render. simpl. by destruct (OrdersPage.render_rows (page st)). Qed.

(** C17. The orders screen shows two search boxes, the [Header]'s
    ("Search orders, customers, products...") and the table's ("Search
    orders...").  Typing in the [Header]'s changes that box's value and
    nothing else of the screen: the rows, the cards and the toolbar stay
    as they were. *)
Theorem orders_header_search_inert st v :
  render (step st (HeaderSearchInput v)) =
  (fun w => mk_view (root_class w) (sidebar w) (Header.render (OrdersPage.isDarkMode (page st)) v)
              (title w) (title_class w) (subtitle w) (subtitle_class w) (cards w) (table_class w)
              (toolbar w) (head_class w) (heads w) (rows w)) <$> render st.
Proof. unfold render. simpl. by destruct (OrdersPage.render_rows (page st)). Qed.

(** C18. In the light theme the orders screen writes white on white: its
    title keeps [text-white] over the light [bg-gray-50] page, and every
    stats card is a [bg-white] card whose value is [text-white].  The
    dashboard's panels switch their text with the theme; this page's
    cards do not. *)
Theorem orders_light_mode_white_text st w :
  OrdersPage.isDarkMode (page st) = false -> render st = Some w ->
  has_class "text-white" (title_class w) = true /\ has_class "bg-gray-50" (root_class w) = true /\
  Forall (fun c => has_class "bg-white" (OrdersPage.card_view_class c) = true /\
                   has_class "text-white" (OrdersPage.card_value_class c) = true) (cards w).
Proof.
  intros Hd. unfold render, OrdersPage.render_cards. rewrite Hd.
  destruct (OrdersPage.render_rows (page st)); intros Hw; simplify_eq.
  vm_compute. split_and!; repeat constructor.
Qed.

(** C19. On the orders screen the sidebar marks "Dashboard", and nothing
    else, as the current page: [active] is fixed in [sidebarItems]. *)
Theorem orders_screen_highlights_dashboard st w sv :
  render st = Some w -> sidebar w = Some sv ->
  map Sidebar.view_label (List.filter Sidebar.view_highlight (Sidebar.nav sv)) = ["Dashboard"].
Proof.
  unfold render. destruct (OrdersPage.render_rows (page st)); intros Hw Hs; simplify_eq.
  revert Hs. simpl. unfold Sidebar.render. destruct (OrdersPage.isSidebarOpen (page st)); intros; simplify_eq.
  reflexivity.
Qed.

End OrdersScreenFacts.

(** ** Instances *)

Definition light_screen : OrdersScreen.state :=
  OrdersScreen.run OrdersScreen.initial [OrdersScreen.PageEvent OrdersPage.ToggleDarkMode].

Lemma orders_light_mode_white_text_witness :
  exists w, OrdersScreen.render light_screen = Some w /\
    has_class "text-white" (OrdersScreen.title_class w) = true /\
    has_class "bg-gray-50" (OrdersScreen.root_class w) = true /\
    Forall (fun c => has_class "bg-white" (OrdersPage.card_view_class c) = true /\
                     has_class "text-white" (OrdersPage.card_value_class c) = true) (OrdersScreen.cards w).
Proof.
  eexists. split; [reflexivity|]. apply (orders_light_mode_white_text light_screen); reflexivity.
Defined.

Lemma orders_screen_highlights_dashboard_witness :
  exists w sv, OrdersScreen.render OrdersScreen.initial = Some w /\ OrdersScreen.sidebar w = Some sv /\
    map Sidebar.view_label (List.filter Sidebar.view_highlight (Sidebar.nav sv)) = ["Dashboard"].
Proof.
  do 2 eexists. split; [reflexivity|]. split; [reflexivity|].
  eapply (orders_screen_highlights_dashboard OrdersScreen.initial); reflexivity.
Defined.

End PagesFacts.
